(** * voiceTrimmer: the session handlers of [src/bot.py] and the conversion
      pipeline of [src/audio_processor.py]

    The bot keeps, per user, a Python dict [context.user_data] with the keys
    ['processing'], ['target_duration'] and ['file_path'].  The handlers
    [cancel], [handle_audio] and [handle_text] read and write that dict, reply
    to the user, download files into a temporary directory and shell out to
    [ffprobe] and [ffmpeg] through [AudioProcessor].

    The embedding is shallow: every handler is a function in a small
    state-and-exception monad over a [World] (the dict, the file system and
    the trace of outbound effects).  Whatever the outside world decides
    (the bytes Telegram delivers, the name of the temporary directory, the
    exit status and output of the external tools) is read from an [Env]
    record, one per handled update.

    Besides the session handlers the development covers the informational
    commands [start] and [help_command], the two probes
    [validate_audio_file] and [get_file_format] of [AudioProcessor], and
    [config/settings.py] as a function of the process environment. *)

From Stdlib Require Import ZArith QArith Qminmax String Ascii List Lia.
From stdpp Require Import base option gmap strings list fin_maps pretty.

Local Open Scope string_scope.
Local Open Scope Z_scope.

(** ** Python values *)

(** A Python [float], with the finite values kept as the exact rational they
    denote: the code only compares floats, it never does arithmetic on them. *)
Inductive pyfloat :=
| Finite (q : Q)
| PosInf
| NegInf
| NaN.

(** The values the handlers store in [context.user_data] or pass around. *)
Inductive pyval :=
| PyNone
| PyBool (b : bool)
| PyInt (z : Z)
| PyFloat (x : pyfloat)
| PyStr (s : string).

(** Python truthiness, as used by [if d.get(k):] and [a or b]. *)
Definition truthy (v : pyval) : bool :=
  match v with
  | PyNone => false
  | PyBool b => b
  | PyInt z => negb (z =? 0)
  | PyFloat (Finite q) => negb (Qeq_bool q 0)
  | PyFloat _ => true
  | PyStr s => negb (String.eqb s "")
  end.

(** [x < y] on floats; every comparison with NaN is false. *)
Definition float_lt (x y : pyfloat) : bool :=
  match x, y with
  | NaN, _ | _, NaN => false
  | NegInf, NegInf => false
  | NegInf, _ => true
  | _, NegInf => false
  | PosInf, _ => false
  | Finite _, PosInf => true
  | Finite a, Finite b => negb (Qle_bool b a)
  end.

(** Python compares an [int] with a [float] by exact value. *)
Definition float_of_Z (z : Z) : pyfloat := Finite (inject_Z z).

Definition Z_of_bool (b : bool) : Z := if b then 1 else 0.

(** ** Exceptions *)

Inductive exn_kind :=
| ValueError
| TypeError
| AttributeError
| KeyError
| FileNotFoundError
| TimeoutExpired
| OSError
| TelegramError.

Record exn := Exn { kind : exn_kind; message : string }.

Inductive result (A : Type) :=
| Return (a : A)
| Raise (e : exn).
Arguments Return {A} a.
Arguments Raise {A} e.

(** ** The world *)

(** Outbound effects, in the order they happen. *)
Inductive effect :=
| Reply (text : string)
| EditText (text : string)
| ReplyVoice (voice : string) (duration : pyval) (caption : string)
| Ran (argv : list string).

(** [user_data] is the per-user dict, [fs] maps the path of every existing
    file to its bytes, [trace] collects the effects. *)
Record World := mkWorld {
  user_data : gmap string pyval;
  fs : gmap string string;
  trace : list effect
}.

(** What [subprocess.run] can come back with: a completed process, a
    [TimeoutExpired], or an [OSError] because the program could not be
    started. *)
Inductive proc :=
| CompletedProcess (returncode : Z) (stdout : string)
| TimedOut
| SpawnFailed (msg : string).

(** The outside world during one handled update.
    - [tmpname]: the directory [tempfile.TemporaryDirectory()] creates;
    - [telegram_file]: the bytes [get_file]/[download_to_drive] deliver, or
      the message of the error they raise;
    - [ffprobe]: outcome of ffprobe, given its arguments and the bytes of the
      file at the probed path ([None] when there is no such file);
    - [ffmpeg]: outcome of ffmpeg, given its arguments and the bytes of its
      input file, together with what it leaves at the output path
      ([None]: the output path is not written). *)
Record Env := mkEnv {
  tmpname : string;
  telegram_file : string + string;
  ffprobe : list string → option string → proc;
  ffmpeg : list string → option string → proc * option string
}.

(** The parts of the Python runtime and of [config/settings.py] the handlers
    depend on.  [py_int] and [py_float] are [int(s)] and [float(s)] with
    [None] for [ValueError]; [str_float] is [str(x)] on a float. *)
Class Runtime := {
  MAX_DURATION : Z;
  py_int : string → option Z;
  py_float : string → option pyfloat;
  str_float : pyfloat → string
}.

(** [config/settings.py] *)
Definition MIN_DURATION : Z := 1.
Definition SAMPLE_RATE : Z := 48000.
Definition CHANNELS : Z := 1.

(** ** The monad *)

Definition M (A : Type) : Type := World → result A * World.

Definition ret {A} (a : A) : M A := λ w, (Return a, w).

Definition bind {A B} (m : M A) (k : A → M B) : M B :=
  λ w, match m w with
       | (Return a, w') => k a w'
       | (Raise e, w') => (Raise e, w')
       end.

Definition raise {A} (k : exn_kind) (msg : string) : M A :=
  λ w, (Raise (Exn k msg), w).

(** [try: body except ...: handler]; [handler e = None] means that no
    [except] clause matches [e], which then propagates. *)
Definition try_except {A} (body : M A) (handler : exn → option (M A)) : M A :=
  λ w, match body w with
       | (Return a, w') => (Return a, w')
       | (Raise e, w') =>
           match handler e with
           | Some h => h w'
           | None => (Raise e, w')
           end
       end.

#[global] Instance M_ret : MRet M := @ret.
#[global] Instance M_bind : MBind M := λ A B k m, bind m k.

(** ** Primitive actions *)

(** [context.user_data.get(key)] *)
Definition ud_get (key : string) : M pyval :=
  λ w, (Return (default PyNone (user_data w !! key)), w).

(** [context.user_data[key]] *)
Definition ud_item (key : string) : M pyval :=
  λ w, match user_data w !! key with
       | Some v => (Return v, w)
       | None => (Raise (Exn KeyError key), w)
       end.

(** [context.user_data[key] = v] *)
Definition ud_set (key : string) (v : pyval) : M unit :=
  λ w, (Return tt, mkWorld (<[key := v]> (user_data w)) (fs w) (trace w)).

Definition emit (e : effect) : M unit :=
  λ w, (Return tt, mkWorld (user_data w) (fs w) (trace w ++ [e])).

Definition reply_text (s : string) : M unit := emit (Reply s).
Definition edit_text (s : string) : M unit := emit (EditText s).

Definition read_file (path : string) : M (option string) :=
  λ w, (Return (fs w !! path), w).

Definition write_file (path : string) (bytes : string) : M unit :=
  λ w, (Return tt, mkWorld (user_data w) (<[path := bytes]> (fs w)) (trace w)).

(** [p] lies under the directory [dir]. *)
Definition in_dir (dir p : string) : bool := String.prefix (dir +:+ "/") p.

(** Removing a directory tree removes every file under it. *)
Definition rmtree (dir : string) (files : gmap string string) : gmap string string :=
  filter (λ kv, in_dir dir kv.1 = false) files.

(** [with tempfile.TemporaryDirectory() as temp_dir: body]: the directory is
    removed when the block is left, by a [return], by falling off its end or
    by an exception. *)
Definition with_tempdir {A} (env : Env) (body : string → M A) : M A :=
  λ w, match body (tmpname env) w with
       | (r, w') => (r, mkWorld (user_data w') (rmtree (tmpname env) (fs w')) (trace w'))
       end.

(** [Path(dir) / name]: an absolute right operand replaces the left one. *)
Definition path_join (dir name : string) : string :=
  if String.prefix "/" name then name else dir +:+ "/" +:+ name.

(** ** Strings *)

(** The characters [str.strip()] removes, among the single-byte ones. *)
Definition is_space (c : ascii) : bool :=
  let n := N_of_ascii c in
  (((9 <=? n) && (n <=? 13)) || ((28 <=? n) && (n <=? 32)))%N.

Fixpoint lstrip (s : string) : string :=
  match s with
  | String c s' => if is_space c then lstrip s' else s
  | EmptyString => EmptyString
  end.

Fixpoint rstrip (s : string) : string :=
  match s with
  | String c s' =>
      match rstrip s' with
      | EmptyString => if is_space c then EmptyString else String c EmptyString
      | r => String c r
      end
  | EmptyString => EmptyString
  end.

Definition strip (s : string) : string := rstrip (lstrip s).

(** [str(n)] on an [int]. *)
Definition str_int (n : Z) : string := pretty n.

(** ** Telegram updates *)

(** [telegram.Audio] and [telegram.Document]: both carry an optional size
    and an optional file name. *)
Record tg_file := mkFile {
  file_id : string;
  file_size : option Z;
  file_name : option string
}.

(** [telegram.Voice] has no [file_name] attribute. *)
Record tg_voice := mkVoice {
  voice_file_id : string;
  voice_file_size : option Z
}.

Inductive media :=
| MAudio (a : tg_file)
| MDocument (d : tg_file)
| MVoice (v : tg_voice).

(** The fields of an update the handlers read:
    [update.effective_user.id] and [update.message]. *)
Record Update := mkUpdate {
  user_id : Z;
  msg_text : string;
  msg_audio : option tg_file;
  msg_document : option tg_file;
  msg_voice : option tg_voice
}.

Definition nl : string := String "010"%char EmptyString.

Section Bot.
Context `{RT : Runtime}.

(** [str(v)], as an f-string formats a value. *)
Definition py_str (v : pyval) : string :=
  match v with
  | PyNone => "None"
  | PyBool true => "True"
  | PyBool false => "False"
  | PyInt z => str_int z
  | PyFloat x => str_float x
  | PyStr s => s
  end.

(** [min(target, actual)] with [actual] a float: CPython keeps the first
    argument unless the second is strictly smaller; comparing a float with
    [None] or a [str] raises [TypeError]. *)
Definition py_min (target : pyval) (actual : pyfloat) : M pyval :=
  match target with
  | PyInt z => mret (if float_lt actual (float_of_Z z) then PyFloat actual else target)
  | PyBool b => mret (if float_lt actual (float_of_Z (Z_of_bool b)) then PyFloat actual else target)
  | PyFloat y => mret (if float_lt actual y then PyFloat actual else target)
  | PyNone | PyStr _ => raise TypeError "'<' not supported between instances of 'float' and this type"
  end.

(** ** [src/audio_processor.py] *)

(** [subprocess.run(cmd, capture_output=True, text=True, timeout=...)]: the
    call is recorded, then the outcome is the one the tool decides. *)
Definition subprocess_run (argv : list string) (outcome : proc) : M (Z * string) :=
  emit (Ran argv);;
  match outcome with
  | CompletedProcess rc out => mret (rc, out)
  | TimedOut => raise TimeoutExpired "Command timed out"
  | SpawnFailed msg => raise OSError msg
  end.

Definition ffprobe_duration_argv (file_path : string) : list string :=
  ["ffprobe"; "-v"; "error"; "-show_entries"; "format=duration";
   "-of"; "default=noprint_wrappers=1:nokey=1:noescapes=1"; file_path].

(** [AudioProcessor.get_duration]: [Some d] for a duration, [None] for the
    Python [None]. *)
Definition get_duration (env : Env) (file_path : string) : M (option pyfloat) :=
  try_except
    (let cmd := ffprobe_duration_argv file_path in
     probed ← read_file file_path;
     result ← subprocess_run cmd (ffprobe env cmd probed);
     if result.1 =? 0 then
       match py_float (strip result.2) with
       | Some duration => mret (Some duration)
       | None => raise ValueError "could not convert string to float"
       end
     else mret None)
    (λ e, match kind e with
          | TimeoutExpired => Some (mret None)
          | ValueError | AttributeError => Some (mret None)
          | _ => None
          end).

Definition ffmpeg_argv (input_path output_path : string) (trim_end : pyval)
    (sample_rate channels : Z) : list string :=
  ["ffmpeg"; "-i"; input_path; "-t"; py_str trim_end;
   "-acodec"; "libopus"; "-ab"; "128k";
   "-ar"; str_int sample_rate; "-ac"; str_int channels;
   "-vn"; "-y"; output_path].

(** Running ffmpeg: what it leaves at the output path is written first, then
    the call returns or raises as [subprocess.run] does. *)
Definition run_ffmpeg (env : Env) (cmd : list string) (input_path output_path : string)
    : M (Z * string) :=
  input ← read_file input_path;
  let outcome := ffmpeg env cmd input in
  match outcome.2 with
  | Some bytes => write_file output_path bytes
  | None => mret tt
  end;;
  subprocess_run cmd outcome.1.

(** A command line is a list of [str]: [subprocess.run] (and [' '.join])
    reject anything else with [TypeError]. *)
Definition as_path (v : pyval) : M string :=
  match v with
  | PyStr s => mret s
  | _ => raise TypeError "expected str, bytes or os.PathLike object"
  end.

(** [Path(p).exists() and Path(p).stat().st_size != 0] *)
Definition nonempty_file (content : option string) : bool :=
  match content with
  | Some bytes => negb (Z.of_nat (String.length bytes) =? 0)
  | None => false
  end.

(** [AudioProcessor.convert_to_voice] *)
Definition convert_to_voice (env : Env) (input_path : pyval) (output_path : string)
    (target_duration : pyval) (sample_rate channels : Z) : M bool :=
  try_except
    (path ← as_path input_path;
     actual_duration ← get_duration env path;
     match actual_duration with
     | None => mret false
     | Some actual =>
         trim_end ← py_min target_duration actual;
         let cmd := ffmpeg_argv path output_path trim_end sample_rate channels in
         result ← run_ffmpeg env cmd path output_path;
         if negb (result.1 =? 0) then mret false
         else
           output_file ← read_file output_path;
           if negb (nonempty_file output_file) then mret false
           else mret true
     end)
    (λ e, Some (mret false)).


(** ** [src/bot.py] *)

(** [update.message.audio or update.message.document or update.message.voice] *)
Definition message_media (u : Update) : option media :=
  match msg_audio u with
  | Some a => Some (MAudio a)
  | None =>
      match msg_document u with
      | Some d => Some (MDocument d)
      | None => MVoice <$> msg_voice u
      end
  end.

Definition media_file_id (m : media) : string :=
  match m with
  | MAudio f | MDocument f => file_id f
  | MVoice v => voice_file_id v
  end.

Definition media_file_size (m : media) : option Z :=
  match m with
  | MAudio f | MDocument f => file_size f
  | MVoice v => voice_file_size v
  end.

(** [audio.file_name] *)
Definition media_file_name (m : media) : M (option string) :=
  match m with
  | MAudio f | MDocument f => mret (file_name f)
  | MVoice _ => raise AttributeError "'Voice' object has no attribute 'file_name'"
  end.

(** [size > limit], where [size] may be [None]. *)
Definition size_gt (size : option Z) (limit : Z) : M bool :=
  match size with
  | Some n => mret (limit <? n)
  | None => raise TypeError "'>' not supported between instances of 'NoneType' and 'int'"
  end.

(** [name or fallback] *)
Definition name_or (name : option string) (fallback : string) : string :=
  match name with
  | Some n => if String.eqb n "" then fallback else n
  | None => fallback
  end.

(** [await context.bot.get_file(...)] followed by
    [await file.download_to_drive(path)] *)
Definition get_file (env : Env) : M string :=
  match telegram_file env with
  | inl bytes => mret bytes
  | inr msg => raise TelegramError msg
  end.

(** [with open(path, 'rb') as voice_file: reply_voice(voice_file, ...)] *)
Definition reply_voice (path : string) (duration : pyval) (caption : string) : M unit :=
  voice_file ← read_file path;
  match voice_file with
  | Some bytes => emit (ReplyVoice bytes duration caption)
  | None => raise FileNotFoundError path
  end.

(** [context.user_data.get(key, default)] *)
Definition ud_get_default (key : string) (dflt : pyval) : M pyval :=
  λ w, (Return (default dflt (user_data w !! key)), w).

(** [VoiceMessageBot.cancel] *)
Definition cancel : M unit :=
  processing ← ud_get "processing";
  if truthy processing then
    ud_set "processing" (PyBool false);;
    reply_text "Operation cancelled."
  else
    reply_text "No operation in progress.".

(** [VoiceMessageBot.handle_audio] *)
Definition handle_audio (u : Update) (env : Env) : M unit :=
  try_except
    (processing ← ud_get "processing";
     if truthy processing then
       reply_text "I'm already processing a file. Please wait..."
     else
       ud_set "processing" (PyBool true);;
       match message_media u with
       | None =>
           reply_text "Please send an audio file.";;
           ud_set "processing" (PyBool false)
       | Some audio =>
           too_large ← size_gt (media_file_size audio) (50 * 1024 * 1024);
           if (too_large : bool) then
             reply_text "File is too large. Maximum size is 50MB.";;
             ud_set "processing" (PyBool false)
           else
             _ ← media_file_name audio;
             reply_text "Downloading file...";;
             file ← get_file env;
             with_tempdir env (λ temp_dir,
               name ← media_file_name audio;
               let input_path :=
                 path_join temp_dir (name_or name ("audio_" +:+ str_int (user_id u))) in
               write_file input_path file;;
               known ← ud_get "target_duration";
               if negb (truthy known) then
                 ud_set "file_path" (PyStr input_path);;
                 duration ← get_duration env input_path;
                 edit_text ("File received! Current duration: "
                            +:+ from_option (λ d, py_str (PyFloat d)) "None" duration
                            +:+ "s" +:+ nl +:+ nl
                            +:+ "Reply with desired duration (1-"
                            +:+ str_int MAX_DURATION +:+ " seconds):")
               else
                 target_duration ← ud_get_default "target_duration" (PyInt MAX_DURATION);
                 edit_text "Processing audio...";;
                 let output_path := path_join temp_dir "output.ogg" in
                 success ← convert_to_voice env (PyStr input_path) output_path
                             target_duration 48000 1;
                 if negb success then
                   edit_text "Failed to process audio. Please try again.";;
                   ud_set "processing" (PyBool false)
                 else
                   edit_text "Sending voice message...";;
                   reply_voice output_path target_duration
                     ("Duration: " +:+ py_str target_duration +:+ "s");;
                   edit_text "✅ Done!";;
                   ud_set "processing" (PyBool false);;
                   ud_set "target_duration" PyNone;;
                   ud_set "file_path" PyNone)
       end)
    (λ e, Some (reply_text ("An error occurred: " +:+ message e +:+ nl +:+ nl
                            +:+ "Please try again.");;
                ud_set "processing" (PyBool false))).

(** [VoiceMessageBot.handle_text] *)
Definition handle_text (u : Update) (env : Env) : M unit :=
  try_except
    (pending ← ud_get "file_path";
     if truthy pending then
       try_except
         (match py_int (msg_text u) with
          | None => raise ValueError "invalid literal for int() with base 10"
          | Some duration =>
              if (duration <? 1) || (MAX_DURATION <? duration) then
                reply_text ("Please specify a duration between 1 and "
                            +:+ str_int MAX_DURATION +:+ " seconds.")
              else
                ud_set "target_duration" (PyInt duration);;
                reply_text "Processing audio...";;
                input_path ← ud_item "file_path";
                with_tempdir env (λ temp_dir,
                  let output_path := path_join temp_dir "output.ogg" in
                  success ← convert_to_voice env input_path output_path
                              (PyInt duration) 48000 1;
                  if negb success then
                    reply_text "Failed to process audio. Please try again."
                  else
                    reply_voice output_path (PyInt duration)
                      ("Duration: " +:+ str_int duration +:+ "s");;
                    ud_set "processing" (PyBool false);;
                    ud_set "target_duration" PyNone;;
                    ud_set "file_path" PyNone)
          end)
         (λ e, match kind e with
               | ValueError =>
                   Some (reply_text ("Please send a valid number between 1 and "
                                     +:+ str_int MAX_DURATION +:+ "."))
               | _ => None
               end)
     else
       reply_text ("Please send an audio file first." +:+ nl
                   +:+ "Type /help for more information."))
    (λ e, Some (reply_text "An error occurred. Please try again.")).

(** ** The bot as a transition system *)

(** One inbound update, with what the outside world does while it is
    handled. *)
Inductive event :=
| CancelCommand
| FileUploaded (u : Update) (env : Env)
| TextReceived (u : Update) (env : Env).

Definition handler (ev : event) : M unit :=
  match ev with
  | CancelCommand => cancel
  | FileUploaded u env => handle_audio u env
  | TextReceived u env => handle_text u env
  end.

(** The world after an update has been handled. *)
Definition step (w : World) (ev : event) : World := (handler ev w).2.

(** Updates of one user are handled in arrival order. *)
Definition run (w : World) (evs : list event) : World := fold_left step evs w.

(** A user the bot has not seen yet: an empty dict. *)
Definition fresh_session (files : gmap string string) : World := mkWorld ∅ files [].

(** ** The session of the specification *)

Inductive Status := Idle | AwaitingDuration | Processing.

(** The session status the dict stands for.  ['processing'] is the flag
    [cancel] and [handle_audio] test for an operation in progress, so a
    session is [Idle] exactly when it is falsy; it is awaiting a duration
    when a file is pending and no duration has been chosen. *)
Definition status (ud : gmap string pyval) : Status :=
  if truthy (default PyNone (ud !! "processing")) then
    if truthy (default PyNone (ud !! "file_path"))
       && negb (truthy (default PyNone (ud !! "target_duration")))
    then AwaitingDuration
    else Processing
  else Idle.

(** An optional field is cleared when the key is absent or holds [None]. *)
Definition cleared (ud : gmap string pyval) (key : string) : bool :=
  match ud !! key with
  | None | Some PyNone => true
  | Some _ => false
  end.

(** The effects a handler added to the trace. *)
Definition emitted (w w' : World) : list effect := drop (length (trace w)) (trace w').

Definition is_voice (e : effect) : bool :=
  match e with ReplyVoice _ _ _ => true | _ => false end.

Definition is_ran (e : effect) : bool :=
  match e with Ran _ => true | _ => false end.

End Bot.

(** ** A reference runtime

    Decimal readers and printers standing for CPython's [int], [float] and
    [str] on the inputs of the scenarios below, with the default
    [MAX_DURATION] of [config/settings.py]. *)

Definition digit_of (c : ascii) : option Z :=
  let n := N_of_ascii c in
  if ((48 <=? n) && (n <=? 57))%N then Some (Z.of_N (n - 48)) else None.

(** Digits, with single underscores allowed between two digits. *)
Fixpoint parse_digits (s : string) (acc : Z) (after_digit : bool) : option Z :=
  match s with
  | EmptyString => if after_digit then Some acc else None
  | String c s' =>
      match digit_of c with
      | Some d => parse_digits s' (10 * acc + d) true
      | None =>
          if Ascii.eqb c "_" && after_digit then parse_digits s' acc false else None
      end
  end.

Definition int_of_string (s : string) : option Z :=
  match strip s with
  | String "+" r => parse_digits r 0 false
  | String "-" r => Z.opp <$> parse_digits r 0 false
  | t => parse_digits t 0 false
  end.

Fixpoint parse_decimal (s : string) (mant : Z) (scale : positive)
    (seen_dot seen_digit : bool) : option Q :=
  match s with
  | EmptyString => if seen_digit then Some (mant # scale) else None
  | String c s' =>
      match digit_of c with
      | Some d =>
          parse_decimal s' (10 * mant + d)
            (if seen_dot then (10 * scale)%positive else scale) seen_dot true
      | None =>
          if Ascii.eqb c "." && negb seen_dot
          then parse_decimal s' mant scale true seen_digit
          else None
      end
  end.

Definition float_of_string (s : string) : option pyfloat :=
  match strip s with
  | "nan" => Some NaN
  | "inf" => Some PosInf
  | "-inf" => Some NegInf
  | String "-" r => (λ q, Finite (Qopp q)) <$> parse_decimal r 0 1 false false
  | t => Finite <$> parse_decimal t 0 1 false false
  end.

(** Up to [n] digits of the fraction [r / d], with [0 <= r < d]. *)
Fixpoint frac_digits (n : nat) (r d : Z) : string :=
  match n with
  | O => ""
  | S n' =>
      if r =? 0 then ""
      else pretty (10 * r / d) +:+ frac_digits n' (10 * r mod d) d
  end.

Definition string_of_float (x : pyfloat) : string :=
  match x with
  | NaN => "nan"
  | PosInf => "inf"
  | NegInf => "-inf"
  | Finite q =>
      let n := Z.abs (Qnum q) in
      let d := Z.pos (Qden q) in
      let frac := frac_digits 17 (n mod d) d in
      (if Qnum q <? 0 then "-" else "") +:+ pretty (n / d) +:+ "."
      +:+ (if String.eqb frac "" then "0" else frac)
  end.

Definition reference_runtime : Runtime :=
  {| MAX_DURATION := 60;
     py_int := int_of_string;
     py_float := float_of_string;
     str_float := string_of_float |}.

(** ** Notions used by the properties *)

(** The number a value denotes, when it denotes a finite one. *)
Definition py_value (v : pyval) : option Q :=
  match v with
  | PyInt z => Some (inject_Z z)
  | PyBool b => Some (inject_Z (Z_of_bool b))
  | PyFloat (Finite q) => Some q
  | _ => None
  end.

(** The pending file path is set exactly when the session awaits a duration. *)
Definition pending_iff_awaiting (ud : gmap string pyval) : bool :=
  Bool.eqb (negb (cleared ud "file_path"))
           (match status ud with AwaitingDuration => true | _ => false end).

(** The file a pending path names does not exist. *)
Definition pending_missing (w : World) : Prop :=
  ∀ p, user_data w !! "file_path" = Some (PyStr p) → fs w !! p = None.

(** The upload handler asked for a duration. *)
Definition is_prompt (e : effect) : bool :=
  match e with
  | EditText s => String.prefix "File received!" s
  | _ => false
  end.

Definition prompted (w w' : World) : bool := existsb is_prompt (emitted w w').

(** The file name Telegram reports is a relative one, so that
    [Path(temp_dir) / name] lies under [temp_dir]. *)
Definition relative_name (name : option string) : bool :=
  match name with
  | Some n => negb (String.prefix "/" n)
  | None => true
  end.

Definition relative_upload (u : Update) : bool :=
  match message_media u with
  | Some (MAudio f) | Some (MDocument f) => relative_name (file_name f)
  | _ => true
  end.

Definition relative_event (ev : event) : bool :=
  match ev with
  | FileUploaded u _ => relative_upload u
  | _ => true
  end.

(** ffprobe does not exit with status zero on a path that names no file. *)
Definition probe_needs_file (env : Env) : Prop :=
  ∀ argv out, ffprobe env argv None ≠ CompletedProcess 0 out.

Definition is_ffmpeg (e : effect) : bool :=
  match e with
  | Ran ("ffmpeg" :: _) => true
  | _ => false
  end.

Section Conversion.
Context `{RT : Runtime}.

(** What the inspector obtains for [path] in world [w]. *)
Definition obtained (env : Env) (w : World) (path : string) : option pyfloat :=
  match (get_duration env path w).1 with
  | Return (Some a) => Some a
  | _ => None
  end.

(** The trim length [convert_to_voice] computes from an [int] target. *)
Definition trim_end (target : Z) (actual : pyfloat) : pyval :=
  if float_lt actual (float_of_Z target) then PyFloat actual else PyInt target.

(** The transcoder call made for [target] once the inspector has obtained
    [actual], and the file at the output path after it. *)
Definition transcode (env : Env) (w : World) (path output : string) (target : Z)
    (actual : pyfloat) (sample_rate channels : Z) : proc * option string :=
  ffmpeg env (ffmpeg_argv path output (trim_end target actual) sample_rate channels)
         (fs w !! path).

Definition output_after (w : World) (output : string) (written : option string)
    : option string :=
  match written with
  | Some bytes => Some bytes
  | None => fs w !! output
  end.


(** The failure causes of the code: the listed ones, and a transcoder that
    could not be started. *)
Definition conversion_failure (env : Env) (w : World) (path output : string) (target : Z)
    (sample_rate channels : Z) : bool :=
  match obtained env w path with
  | None => true
  | Some actual =>
      let t := transcode env w path output target actual sample_rate channels in
      match t.1 with
      | CompletedProcess rc _ =>
          negb (rc =? 0) || negb (nonempty_file (output_after w output t.2))
      | TimedOut => true
      | SpawnFailed _ => true
      end
  end.

End Conversion.

(** ** Scenarios *)

Definition audio_update (name : string) : Update :=
  mkUpdate 7 "" (Some (mkFile "AgAD" (Some 1000) (Some name))) None None.

Definition text_update (s : string) : Update := mkUpdate 7 s None None None.

(** ffprobe reports [seconds] for an existing file and exits with status 1
    for a missing one. *)
Definition probe_reports (seconds : string) : list string → option string → proc :=
  λ _ probed,
    match probed with
    | Some _ => CompletedProcess 0 (seconds +:+ nl)
    | None => CompletedProcess 1 ""
    end.

(** ffprobe exits with status 1 whatever it is given. *)
Definition probe_fails : list string → option string → proc :=
  λ _ _, CompletedProcess 1 "".

(** ffmpeg transcodes an existing input and exits with status 1 otherwise. *)
Definition transcoder_works : list string → option string → proc * option string :=
  λ _ input,
    match input with
    | Some _ => (CompletedProcess 0 "", Some "OggS")
    | None => (CompletedProcess 1 "", None)
    end.

(** The ffmpeg binary cannot be started. *)
Definition transcoder_absent : list string → option string → proc * option string :=
  λ _ _, (SpawnFailed "[Errno 2] No such file or directory: 'ffmpeg'", None).

Definition env_upload : Env :=
  mkEnv "/tmp/tmpa1" (inl "ID3.") (probe_reports "90.000000") transcoder_works.

Definition env_reply : Env :=
  mkEnv "/tmp/tmpb2" (inl "") (probe_reports "90.000000") transcoder_works.

Definition env_unprobeable : Env :=
  mkEnv "/tmp/tmpc3" (inl "notes") probe_fails transcoder_works.

Definition env_short : Env :=
  mkEnv "/tmp/tmpd4" (inl "") (probe_reports "30.000000") transcoder_works.

Definition env_no_ffmpeg : Env :=
  mkEnv "/tmp/tmpe5" (inl "") (probe_reports "90.000000") transcoder_absent.

(** A session right after an upload was acknowledged. *)
Definition awaiting (path : string) (files : gmap string string) : World :=
  mkWorld (<["file_path" := PyStr path]> (<["processing" := PyBool true]> ∅)) files [].

(** The world in which [handle_text] starts the conversion for [d]. *)
Definition converting (w : World) (d : Z) : World :=
  mkWorld (<["target_duration" := PyInt d]> (user_data w)) (fs w)
          (trace w ++ [Reply "Processing audio..."]).

(** ** The rest of [src/audio_processor.py] *)

(** [needle in s] on strings. *)
Fixpoint contains (needle s : string) : bool :=
  String.prefix needle s
  || match s with
     | String _ s' => contains needle s'
     | EmptyString => false
     end.

Definition ffprobe_validate_argv (file_path : string) : list string :=
  ["ffprobe"; "-v"; "error"; "-select_streams"; "a:0";
   "-show_entries"; "stream=codec_type"; "-of"; "csv=p=0"; file_path].

Definition ffprobe_format_argv (file_path : string) : list string :=
  ["ffprobe"; "-v"; "error"; "-select_streams"; "a:0";
   "-show_entries"; "stream=codec_name";
   "-of"; "default=noprint_wrappers=1:nokey=1:noescapes=1"; file_path].

Section Probes.
Context `{RT : Runtime}.

(** [AudioProcessor.validate_audio_file] *)
Definition validate_audio_file (env : Env) (file_path : string) : M bool :=
  try_except
    (let cmd := ffprobe_validate_argv file_path in
     probed ← read_file file_path;
     result ← subprocess_run cmd (ffprobe env cmd probed);
     let is_valid := (result.1 =? 0) && contains "audio" result.2 in
     mret is_valid)
    (λ e, Some (mret false)).

(** [AudioProcessor.get_file_format]: [Some s] for a format string, [None]
    for the Python [None]. *)
Definition get_file_format (env : Env) (file_path : string) : M (option string) :=
  try_except
    (let cmd := ffprobe_format_argv file_path in
     probed ← read_file file_path;
     result ← subprocess_run cmd (ffprobe env cmd probed);
     if result.1 =? 0 then
       let format_str := strip result.2 in
       mret (Some format_str)
     else mret None)
    (λ e, Some (mret None)).

End Probes.

(** ** [config/settings.py] as a function of the process environment *)

Module settings.

(** [os.getenv(key, default)] *)
Definition getenv (environ : gmap string string) (key dflt : string) : string :=
  default dflt (environ !! key).

Definition lower_ascii (c : ascii) : ascii :=
  let n := N_of_ascii c in
  if ((65 <=? n) && (n <=? 90))%N then ascii_of_N (n + 32) else c.

(** [str.lower()], on the single-byte characters. *)
Fixpoint lower (s : string) : string :=
  match s with
  | String c s' => String (lower_ascii c) (lower s')
  | EmptyString => EmptyString
  end.

Definition PLACEHOLDER : string := "YOUR_TELEGRAM_BOT_TOKEN_HERE".

(** The names the module defines. *)
Record t := mk {
  TELEGRAM_TOKEN : string;
  MAX_DURATION : Z;
  MIN_DURATION : Z;
  SAMPLE_RATE : Z;
  CHANNELS : Z;
  SUPPORTED_FORMATS : list string;
  MAX_FILE_SIZE : Z;
  LOG_DIR : string;
  LOG_LEVEL : string;
  FFMPEG_PATH : string;
  FFPROBE_PATH : string;
  TEMP_DIR : string;
  PROCESS_TIMEOUT : Z;
  REQUEST_KWARGS : list (string * Z);
  DATABASE_URL : option string;
  DEBUG : bool
}.

(** Importing the module: the assignments in order, then the token check.
    [int] is Python's [int(s)], with [None] for [ValueError];
    [project_logs] is [str(PROJECT_ROOT / 'logs')]. *)
Definition load (int : string → option Z) (project_logs : string)
    (environ : gmap string string) : result t :=
  let token := getenv environ "TELEGRAM_BOT_TOKEN" PLACEHOLDER in
  match int (getenv environ "MAX_DURATION" "60") with
  | None => Raise (Exn ValueError "invalid literal for int() with base 10")
  | Some max_duration =>
      let log_dir := getenv environ "LOG_DIR" project_logs in
      let log_level := getenv environ "LOG_LEVEL" "INFO" in
      let ffmpeg_path := getenv environ "FFMPEG_PATH" "ffmpeg" in
      let ffprobe_path := getenv environ "FFPROBE_PATH" "ffprobe" in
      let temp_dir := getenv environ "TEMP_DIR" "/tmp/voice_trimmer" in
      match int (getenv environ "PROCESS_TIMEOUT" "300") with
      | None => Raise (Exn ValueError "invalid literal for int() with base 10")
      | Some process_timeout =>
          let database_url := environ !! "DATABASE_URL" in
          let debug := String.eqb (lower (getenv environ "DEBUG" "False")) "true" in
          if String.eqb token PLACEHOLDER then
            Raise (Exn ValueError
                     ("TELEGRAM_BOT_TOKEN environment variable is not set. "
                      +:+ "Please set it before running the bot."))
          else
            Return (mk token max_duration 1 48000 1
                      ["mp3"; "wav"; "ogg"; "flac"; "m4a"; "aac"]
                      (50 * 1024 * 1024) log_dir log_level ffmpeg_path ffprobe_path
                      temp_dir process_timeout
                      [("connect_timeout", 10); ("read_timeout", 10)]
                      database_url debug)
      end
  end.

End settings.

(** The runtime a bot gets from the loaded settings: [bot.py] imports
    [MAX_DURATION] from them. *)
Definition with_settings (s : settings.t) (RT : Runtime) : Runtime :=
  {| MAX_DURATION := settings.MAX_DURATION s;
     py_int := @py_int RT;
     py_float := @py_float RT;
     str_float := @str_float RT |}.

(** ** The informational commands of [src/bot.py] *)

(** [SUPPORTED_FORMATS] of [config/settings.py], which [bot.py] imports. *)
Definition SUPPORTED_FORMATS : list string := ["mp3"; "wav"; "ogg"; "flac"; "m4a"; "aac"].

(** [sep.join(parts)] *)
Definition join (sep : string) (parts : list string) : string := String.concat sep parts.

Section Commands.
Context `{RT : Runtime}.

(** [VoiceMessageBot.start] *)
Definition start : M unit :=
  let welcome_text :=
    "Welcome to Voice Trimmer Bot! 🎵" +:+ nl +:+ nl
    +:+ "I convert music files to voice messages with specific length." +:+ nl +:+ nl
    +:+ "Supported formats: " +:+ join ", " SUPPORTED_FORMATS +:+ nl
    +:+ "Maximum duration: " +:+ str_int MAX_DURATION +:+ " seconds" +:+ nl +:+ nl
    +:+ "Usage:" +:+ nl
    +:+ "1. Send me a music file" +:+ nl
    +:+ "2. Specify the desired duration in seconds (optional)" +:+ nl
    +:+ "3. I'll convert it to a voice message and send it back" +:+ nl +:+ nl
    +:+ "Commands:" +:+ nl
    +:+ "/start - Show this message" +:+ nl
    +:+ "/help - Get help" +:+ nl
    +:+ "/cancel - Cancel current operation" in
  reply_text welcome_text.

(** [VoiceMessageBot.help_command] *)
Definition help_command : M unit :=
  let help_text :=
    "Voice Trimmer Bot Help" +:+ nl +:+ nl
    +:+ "How to use:" +:+ nl
    +:+ "1. Send an audio file (MP3, WAV, OGG, etc.)" +:+ nl
    +:+ "2. Reply with the desired duration in seconds" +:+ nl
    +:+ "3. The bot will convert and send back as a voice message" +:+ nl +:+ nl
    +:+ "Limitations:" +:+ nl
    +:+ "• Max file size: 20MB" +:+ nl
    +:+ "• Max duration: " +:+ str_int MAX_DURATION +:+ " seconds" +:+ nl
    +:+ "• Output: Telegram voice message format (OGG)" +:+ nl +:+ nl
    +:+ "Tips:" +:+ nl
    +:+ "• Longer durations take more time to process" +:+ nl
    +:+ "• Quality depends on input file quality" in
  reply_text help_text.

(** An update of one user and the callback [setup_handlers] registers for
    it: the three commands, the media handler and the text handler. *)
Inductive update_event :=
| StartCommand
| HelpCommand
| Session (ev : event).

Definition callback (ev : update_event) : M unit :=
  match ev with
  | StartCommand => start
  | HelpCommand => help_command
  | Session ev => handler ev
  end.

Definition step_update (w : World) (ev : update_event) : World := (callback ev w).2.

Definition run_updates (w : World) (evs : list update_event) : World :=
  fold_left step_update evs w.

End Commands.

(** The session events among the updates. *)
Definition session_events (evs : list update_event) : list event :=
  omap (λ ev, match ev with Session e => Some e | _ => None end) evs.

(** ** Further notions used by the properties *)

(** A file name without a directory part: [Path(temp_dir) / name] is a file
    directly in [temp_dir]. *)
Fixpoint has_slash (s : string) : bool :=
  match s with
  | String c s' => Ascii.eqb c "/" || has_slash s'
  | EmptyString => false
  end.

Definition plain_name (name : option string) : bool :=
  match name with
  | Some n => negb (has_slash n) && negb (String.eqb n ".") && negb (String.eqb n "..")
  | None => true
  end.

Definition plain_upload (u : Update) : bool :=
  match message_media u with
  | Some (MAudio f) | Some (MDocument f) => plain_name (file_name f)
  | _ => true
  end.

Definition plain_event (ev : event) : bool :=
  match ev with
  | FileUploaded u _ => plain_upload u
  | _ => true
  end.

(** The upload [handle_audio] goes on to store: the session is not busy,
    the message carries an audio or a document whose size is known and
    within the limit, and Telegram delivers its bytes.  The result is the
    file name used and the bytes. *)
Definition accepted_upload (w : World) (u : Update) (env : Env) : option (string * string) :=
  if truthy (default PyNone (user_data w !! "processing")) then None
  else
    match message_media u with
    | Some (MAudio f) | Some (MDocument f) =>
        match file_size f, telegram_file env with
        | Some n, inl bytes =>
            if 50 * 1024 * 1024 <? n then None
            else Some (name_or (file_name f) ("audio_" +:+ str_int (user_id u)), bytes)
        | _, _ => None
        end
    | _ => None
    end.

(** The world in which [handle_audio] has stored the download at
    [input_path]. *)
Definition downloaded (w : World) (input_path bytes : string) : World :=
  mkWorld (<["processing" := PyBool true]> (user_data w))
          (<[input_path := bytes]> (fs w))
          (trace w ++ [Reply "Downloading file..."]).

(** The world in which [handle_audio] starts the conversion of the download
    stored at [input_path]. *)
Definition uploading (w : World) (input_path bytes : string) : World :=
  mkWorld (<["processing" := PyBool true]> (user_data w))
          (<[input_path := bytes]> (fs w))
          (trace w ++ [Reply "Downloading file..."; EditText "Processing audio..."]).

(** No file lies under [dir]. *)
Definition dir_absent (dir : string) (files : gmap string string) : Prop :=
  ∀ p, in_dir dir p = true → files !! p = None.

(** A computation that only appends to the trace and does not read it: run
    on any trace, it does what it does on the empty one. *)
Definition trace_parametric {A} (m : M A) : Prop :=
  ∀ ud files t,
    m (mkWorld ud files t)
    = ((m (mkWorld ud files [])).1,
       mkWorld (user_data (m (mkWorld ud files [])).2) (fs (m (mkWorld ud files [])).2)
               (t ++ trace (m (mkWorld ud files [])).2)).

(** The shape of the dict the handlers maintain: ['processing'] is absent
    or a [bool], ['target_duration'] is absent, [None] or an [int] within
    the bounds, ['file_path'] is absent, [None] or a non-empty [str]. *)
Definition well_formed `{Runtime} (ud : gmap string pyval) : bool :=
  match ud !! "processing" with
  | None | Some (PyBool _) => true
  | _ => false
  end
  && match ud !! "target_duration" with
     | None | Some PyNone => true
     | Some (PyInt d) => (MIN_DURATION <=? d) && (d <=? MAX_DURATION)
     | _ => false
     end
  && match ud !! "file_path" with
     | None | Some PyNone => true
     | Some (PyStr p) => negb (String.eqb p "")
     | _ => false
     end.

(** More scenarios. *)

Definition voice_update : Update :=
  mkUpdate 7 "" None None (Some (mkVoice "AwAC" (Some 2000))).

Definition sized_update (size : option Z) : Update :=
  mkUpdate 7 "" (Some (mkFile "AgAD" size (Some "song.mp3"))) None None.

Definition probe_absent : list string → option string → proc :=
  λ _ _, SpawnFailed "[Errno 2] No such file or directory: 'ffprobe'".

Definition env_no_ffprobe : Env :=
  mkEnv "/tmp/tmpf6" (inl "ID3.") probe_absent transcoder_works.

Definition env_offline : Env :=
  mkEnv "/tmp/tmpg7" (inr "Timed out") (probe_reports "90.000000") transcoder_works.



(** ** A contract for the transcoder *)

(** What ffmpeg is expected to do with [-t]: run on an input of duration
    [A] with the trim argument [s], which it reads as the number [T], an
    ffmpeg that exits with status zero has written an output of duration
    [min(T, A)].  [read] is how ffmpeg reads a number, [len] the duration of
    a media file given its bytes. *)
Definition honours_trim (env : Env) (read len : string → option Q) : Prop :=
  ∀ input output s sr ch bytes T A out written,
    read s = Some T → len bytes = Some A →
    ffmpeg env ["ffmpeg"; "-i"; input; "-t"; s; "-acodec"; "libopus"; "-ab"; "128k";
                "-ar"; sr; "-ac"; ch; "-vn"; "-y"; output] (Some bytes)
    = (CompletedProcess 0 out, written) →
    ∃ voice L, written = Some voice ∧ len voice = Some L ∧ (L == Qmin T A)%Q.

(** A small world for the contract: two inputs of 30 and 90 seconds, two
    outputs of 30 and 60 seconds, and an ffmpeg that understands the trim
    arguments [30.0] and [60]. *)
Definition media_len (bytes : string) : option Q :=
  if String.eqb bytes "ID3:30" then Some (30000000 # 1000000)%Q
  else if String.eqb bytes "ID3:90" then Some (90000000 # 1000000)%Q
  else if String.eqb bytes "Ogg:30" then Some (30 # 1)%Q
  else if String.eqb bytes "Ogg:60" then Some (60 # 1)%Q
  else None.

Definition read_trim (s : string) : option Q :=
  if String.eqb s "30.0" then Some (30 # 1)%Q
  else if String.eqb s "60" then Some (60 # 1)%Q
  else None.

Definition probe_media : list string → option string → proc :=
  λ _ probed,
    match probed with
    | Some "ID3:30" => CompletedProcess 0 ("30.000000" +:+ nl)
    | Some "ID3:90" => CompletedProcess 0 ("90.000000" +:+ nl)
    | _ => CompletedProcess 1 ""
    end.

Definition transcoder_trims : list string → option string → proc * option string :=
  λ argv input,
    match read_trim (nth 4 argv ""), input ≫= media_len with
    | Some T, Some A =>
        (CompletedProcess 0 "",
         Some (if Qle_bool (60 # 1) (Qmin T A) then "Ogg:60" else "Ogg:30"))
    | _, _ => (CompletedProcess 1 "", None)
    end.

Definition env_trimming : Env :=
  mkEnv "/tmp/tmph8" (inl "ID3:30") probe_media transcoder_trims.

(** * Properties *)

(** ** Running the monad *)

Ltac munfold :=
  unfold step, handler, handle_audio, handle_text, cancel, convert_to_voice, get_duration,
    run_ffmpeg, subprocess_run, with_tempdir, reply_voice, get_file, size_gt,
    media_file_name, as_path, py_min, ud_get_default,
    try_except, mbind, M_bind, bind, mret, M_ret, ret, raise,
    ud_get, ud_item, ud_set, reply_text, edit_text, emit, read_file, write_file in *.

Lemma emitted_app w ud files l : emitted w (mkWorld ud files (trace w ++ l)) = l.
Proof. unfold emitted. cbn. by rewrite drop_app_length. Qed.

Lemma emitted_refl w : emitted w w = [].
Proof. unfold emitted. by rewrite drop_all. Qed.

Lemma status_Processing_flag ud :
  status ud = Processing → truthy (default PyNone (ud !! "processing")) = true.
Proof. unfold status. by destruct (truthy (default PyNone (ud !! "processing"))). Qed.

Lemma status_Awaiting_pending ud :
  status ud = AwaitingDuration → truthy (default PyNone (ud !! "file_path")) = true.
Proof.
  unfold status.
  destruct (truthy (default PyNone (ud !! "processing"))); [|done].
  by destruct (truthy (default PyNone (ud !! "file_path"))).
Qed.

(** ** The session state machine *)

(** C6: a file upload that arrives while the session's status is
    [Processing] is answered with the busy message only; the dict (status,
    pending file path, target duration) and the file system are left exactly
    as they were. *)
Theorem upload_while_processing_rejected `{Runtime} (w : World) u env :
  status (user_data w) = Processing →
  let w' := step w (FileUploaded u env) in
  user_data w' = user_data w ∧ fs w' = fs w ∧
  emitted w w' = [Reply "I'm already processing a file. Please wait..."].
Proof.
  intros Hs%status_Processing_flag. munfold. cbn. rewrite Hs. cbn.
  by rewrite emitted_app.
Qed.

Lemma upload_while_processing_rejected_witness :
  let w := mkWorld (<["processing" := PyBool true]> ∅) ∅ [] in
  status (user_data w) = Processing ∧
  user_data (step (RT := reference_runtime) w
                  (FileUploaded (audio_update "song.mp3") env_upload))
  = user_data w.
Proof.
  split; [reflexivity|].
  apply (upload_while_processing_rejected (H := reference_runtime)).
  reflexivity.
Defined.

(** C5: in [AwaitingDuration], a text that does not parse as an integer, or
    parses to a value outside [MIN_DURATION, MAX_DURATION], leaves the dict
    and the file system untouched (so the session stays in
    [AwaitingDuration] with the same pending file path), and the only effect
    is one corrective prompt: nothing is run and no voice is sent. *)
Theorem invalid_duration_reprompts `{Runtime} (w : World) u env :
  status (user_data w) = AwaitingDuration →
  (py_int (msg_text u) = None
   ∨ ∃ v, py_int (msg_text u) = Some v ∧ (v < MIN_DURATION ∨ MAX_DURATION < v)) →
  let w' := step w (TextReceived u env) in
  user_data w' = user_data w ∧ fs w' = fs w ∧
  status (user_data w') = AwaitingDuration ∧
  user_data w' !! "file_path" = user_data w !! "file_path" ∧
  (emitted w w' = [Reply ("Please send a valid number between 1 and "
                          +:+ str_int MAX_DURATION +:+ ".")]
   ∨ emitted w w' = [Reply ("Please specify a duration between 1 and "
                            +:+ str_int MAX_DURATION +:+ " seconds.")]).
Proof.
  intros Hs Hbad. pose proof (status_Awaiting_pending _ Hs) as Hp.
  munfold. cbn. rewrite Hp. cbn.
  destruct Hbad as [-> | (v & -> & Hv)]; cbn.
  - rewrite emitted_app. auto 10.
  - replace ((v <? 1) || (MAX_DURATION <? v)) with true.
    + cbn. rewrite emitted_app. auto 10.
    + symmetry. apply orb_true_iff. unfold MIN_DURATION in Hv. lia.
Qed.

Lemma invalid_duration_reprompts_witness :
  let w := awaiting "/tmp/tmpa1/song.mp3" ∅ in
  let w' := step (RT := reference_runtime) w (TextReceived (text_update "9999") env_reply) in
  status (user_data w) = AwaitingDuration ∧
  user_data w' = user_data w ∧
  emitted w w' = [Reply "Please specify a duration between 1 and 60 seconds."].
Proof.
  assert (Hbad : @py_int reference_runtime (msg_text (text_update "9999")) = None
                 ∨ ∃ v, @py_int reference_runtime (msg_text (text_update "9999")) = Some v
                        ∧ (v < MIN_DURATION ∨ @MAX_DURATION reference_runtime < v)).
  { right. exists 9999. split; [reflexivity|]. right. reflexivity. }
  pose proof (invalid_duration_reprompts (H := reference_runtime)
                (awaiting "/tmp/tmpa1/song.mp3" ∅) (text_update "9999") env_reply
                eq_refl Hbad) as (Hud & _).
  split; [reflexivity|]. split; [exact Hud|]. vm_compute. reflexivity.
Defined.

(** [cancel] never writes the optional fields: every key other than
    ['processing'] keeps its value. *)
Lemma cancel_keeps_other_keys `{Runtime} (w : World) key :
  key ≠ "processing" →
  user_data (step w CancelCommand) !! key = user_data w !! key.
Proof.
  intros Hk. munfold. cbn.
  destruct (truthy (default PyNone (user_data w !! "processing"))); cbn; [|done].
  by rewrite lookup_insert_ne.
Qed.

(** From a session with an operation in progress, [cancel] makes the status
    [Idle] and confirms. *)
Lemma cancel_makes_idle `{Runtime} (w : World) :
  status (user_data w) ≠ Idle →
  let w' := step w CancelCommand in
  status (user_data w') = Idle ∧ emitted w w' = [Reply "Operation cancelled."].
Proof.
  intros Hs. munfold. cbn.
  destruct (truthy (default PyNone (user_data w !! "processing"))) eqn:Hp; cbn.
  - rewrite emitted_app. split; [|done].
    unfold status. by rewrite lookup_insert_eq.
  - exfalso. apply Hs. unfold status. by rewrite Hp.
Qed.

(** C4: [cancel] in [AwaitingDuration], on the session an upload leaves
    behind.  The status becomes [Idle] and the confirmation is sent, but the
    pending file path is still in the dict: the optional fields are not
    cleared, and a number sent afterwards still starts a conversion of the
    cancelled file. *)
Theorem cancel_leaves_pending_file :
  let w := awaiting "/tmp/tmpa1/song.mp3" ∅ in
  let w' := step (RT := reference_runtime) w CancelCommand in
  let w'' := step (RT := reference_runtime) w' (TextReceived (text_update "30") env_reply) in
  status (user_data w) = AwaitingDuration ∧
  status (user_data w') = Idle ∧
  emitted w w' = [Reply "Operation cancelled."] ∧
  user_data w' !! "file_path" = Some (PyStr "/tmp/tmpa1/song.mp3") ∧
  cleared (user_data w') "file_path" = false ∧
  head (emitted w' w'') = Some (Reply "Processing audio...").
Proof. vm_compute. repeat split. Qed.

(** C1: a valid duration reply whose conversion fails.  After the upload of
    [song.mp3] and the reply ["30"] the handler reports the failure and
    returns without the reset: ['processing'] is still [True], the target
    duration is still [30] and the pending file path is still set, so the
    session is not [Idle].  The same happens when the pending file exists and
    it is the transcoder that fails. *)
Theorem failed_conversion_is_not_reset :
  let w := run (RT := reference_runtime) (fresh_session ∅)
             [FileUploaded (audio_update "song.mp3") env_upload] in
  let w' := step (RT := reference_runtime) w (TextReceived (text_update "30") env_reply) in
  let v := awaiting "/srv/song.mp3" {["/srv/song.mp3" := "ID3."]} in
  let v' := step (RT := reference_runtime) v (TextReceived (text_update "30") env_no_ffmpeg) in
  (last (emitted w w') = Some (Reply "Failed to process audio. Please try again.") ∧
   user_data w' !! "processing" = Some (PyBool true) ∧
   user_data w' !! "target_duration" = Some (PyInt 30) ∧
   user_data w' !! "file_path" = Some (PyStr "/tmp/tmpa1/song.mp3") ∧
   status (user_data w') = Processing) ∧
  (last (emitted v v') = Some (Reply "Failed to process audio. Please try again.") ∧
   user_data v' !! "processing" = Some (PyBool true) ∧
   user_data v' !! "target_duration" = Some (PyInt 30) ∧
   user_data v' !! "file_path" = Some (PyStr "/srv/song.mp3") ∧
   status (user_data v') = Processing).
Proof. vm_compute. repeat split. Qed.

(** C7: an upload whose duration the inspector cannot obtain (ffprobe exits
    with status 1).  [get_duration] returns [None], which the handler formats
    into the prompt: the user is asked for a duration, no error is reported
    and the session is left in [AwaitingDuration], not reset to [Idle]. *)
Theorem unprobeable_upload_is_prompted :
  let w := fresh_session ∅ in
  let w' := step (RT := reference_runtime) w
              (FileUploaded (audio_update "notes.txt") env_unprobeable) in
  obtained (RT := reference_runtime) env_unprobeable
    (mkWorld ∅ {["/tmp/tmpc3/notes.txt" := "notes"]} []) "/tmp/tmpc3/notes.txt" = None ∧
  emitted w w' =
    [Reply "Downloading file...";
     Ran (ffprobe_duration_argv "/tmp/tmpc3/notes.txt");
     EditText ("File received! Current duration: Nones" +:+ nl +:+ nl
               +:+ "Reply with desired duration (1-60 seconds):")] ∧
  status (user_data w') = AwaitingDuration ∧
  user_data w' !! "file_path" = Some (PyStr "/tmp/tmpc3/notes.txt").
Proof. vm_compute. repeat split. Qed.

(** C9: the session after an upload followed by [/cancel].  The status is
    [Idle] while the pending file path is still set, so the invariant
    "pending file path set iff [AwaitingDuration]" does not hold in this
    reachable state; it does not hold after a failed conversion either,
    where the status is [Processing] and the path is still set. *)
Theorem pending_path_outlives_awaiting :
  let w := run (RT := reference_runtime) (fresh_session ∅)
             [FileUploaded (audio_update "song.mp3") env_upload; CancelCommand] in
  let v := run (RT := reference_runtime) (fresh_session ∅)
             [FileUploaded (audio_update "song.mp3") env_upload;
              TextReceived (text_update "30") env_reply] in
  (status (user_data w) = Idle ∧
   user_data w !! "file_path" = Some (PyStr "/tmp/tmpa1/song.mp3") ∧
   pending_iff_awaiting (user_data w) = false) ∧
  (status (user_data v) = Processing ∧
   user_data v !! "file_path" = Some (PyStr "/tmp/tmpa1/song.mp3") ∧
   pending_iff_awaiting (user_data v) = false).
Proof. vm_compute. repeat split. Qed.

(** ** The conversion pipeline *)

(** [get_duration] records the probe and leaves the dict and the files
    alone. *)
Lemma get_duration_world `{Runtime} env path (w : World) :
  (get_duration env path w).2
  = mkWorld (user_data w) (fs w) (trace w ++ [Ran (ffprobe_duration_argv path)]).
Proof.
  munfold. cbn.
  destruct (ffprobe env _ _) as [rc out| |msg]; cbn; [|done..].
  destruct (rc =? 0); cbn; [|done].
  by destruct (py_float _).
Qed.

(** [get_duration] raises only when ffprobe cannot be started. *)
Lemma get_duration_result `{Runtime} env path (w : World) :
  (get_duration env path w).1
  = match ffprobe env (ffprobe_duration_argv path) (fs w !! path) with
    | CompletedProcess rc out => Return (if rc =? 0 then py_float (strip out) else None)
    | TimedOut => Return None
    | SpawnFailed msg => Raise (Exn OSError msg)
    end.
Proof.
  munfold. cbn.
  destruct (ffprobe env _ _) as [rc out| |msg]; cbn; [|done..].
  destruct (rc =? 0); cbn; [|done].
  by destruct (py_float _).
Qed.

Lemma convert_to_voice_run `{Runtime} env path output d sr ch (w : World) :
  convert_to_voice env (PyStr path) output (PyInt d) sr ch w
  = match obtained env w path with
    | None =>
        (Return false,
         mkWorld (user_data w) (fs w) (trace w ++ [Ran (ffprobe_duration_argv path)]))
    | Some a =>
        let t := transcode env w path output d a sr ch in
        (Return (negb (conversion_failure env w path output d sr ch)),
         mkWorld (user_data w)
           (match t.2 with Some bytes => <[output := bytes]> (fs w) | None => fs w end)
           (trace w ++ [Ran (ffprobe_duration_argv path);
                        Ran (ffmpeg_argv path output (trim_end d a) sr ch)]))
    end.
Proof.
  unfold conversion_failure, obtained.
  pose proof (get_duration_result env path w) as Hr.
  pose proof (get_duration_world env path w) as Hw.
  destruct (get_duration env path w) as [r w1] eqn:Hg. cbn in Hr, Hw. subst w1.
  unfold convert_to_voice, try_except, mbind, M_bind, bind, as_path, mret, M_ret, ret.
  rewrite Hg. cbn.
  destruct r as [[a|]|e]; cbn; [|done..].
  unfold transcode, trim_end, run_ffmpeg, subprocess_run, mbind, M_bind, bind, mret, M_ret, ret,
    read_file, write_file, emit, raise. cbn.
  destruct (ffmpeg env _ _) as [p written] eqn:Hf. cbn.
  destruct written as [bytes|]; cbn;
    (destruct p as [rc out| |msg]; cbn;
     [destruct (rc =? 0); cbn; rewrite ?lookup_insert_eq|..]);
    rewrite <- ?app_assoc; cbn;
    try destruct (nonempty_file _); try destruct (Z.of_nat _ =? 0); done.
Qed.

(** [convert_to_voice] never raises: the catch-all turns every exception
    into [False]. *)
Lemma convert_to_voice_total `{Runtime} env input output target sr ch (w : World) :
  ∃ b, (convert_to_voice env input output target sr ch w).1 = Return b.
Proof.
  unfold convert_to_voice, try_except.
  match goal with
  | |- context [match ?m with pair _ _ => _ end] => destruct m as [[b|e] w']
  end; cbn; eauto.
Qed.

(** An input path that is not a [str] fails before anything is run. *)
Lemma convert_to_voice_not_str `{Runtime} env input output target sr ch (w : World) :
  (∀ s, input ≠ PyStr s) →
  convert_to_voice env input output target sr ch w = (Return false, w).
Proof.
  intros Hs. unfold convert_to_voice, try_except, mbind, M_bind, bind, as_path.
  destruct input; try done. by destruct (Hs s).
Qed.

Lemma trim_end_float_lt (d : Z) (A : Q) :
  float_lt (Finite A) (float_of_Z d) = true ↔ (A < inject_Z d)%Q.
Proof.
  cbn. rewrite negb_true_iff. split.
  - intros Hb. apply Qnot_le_lt. intros Hle%Qle_bool_iff. congruence.
  - intros Hlt. destruct (Qle_bool (inject_Z d) A) eqn:Hb; [|done].
    apply Qle_bool_iff in Hb. exfalso. by apply (Qlt_not_le _ _ Hlt).
Qed.

Lemma read_trim_Some s T :
  read_trim s = Some T → (s = "30.0" ∧ T = (30 # 1)%Q) ∨ (s = "60" ∧ T = (60 # 1)%Q).
Proof.
  unfold read_trim.
  destruct (String.eqb s "30.0") eqn:H1; [apply String.eqb_eq in H1; intros [= <-]; auto|].
  destruct (String.eqb s "60") eqn:H2; [apply String.eqb_eq in H2; intros [= <-]; auto|].
  discriminate.
Qed.

Lemma media_len_Some bytes A :
  media_len bytes = Some A →
  bytes = "ID3:30" ∨ bytes = "ID3:90" ∨ bytes = "Ogg:30" ∨ bytes = "Ogg:60".
Proof.
  unfold media_len.
  destruct (String.eqb bytes "ID3:30") eqn:H1; [apply String.eqb_eq in H1; auto|].
  destruct (String.eqb bytes "ID3:90") eqn:H2; [apply String.eqb_eq in H2; auto|].
  destruct (String.eqb bytes "Ogg:30") eqn:H3; [apply String.eqb_eq in H3; auto|].
  destruct (String.eqb bytes "Ogg:60") eqn:H4; [apply String.eqb_eq in H4; auto 10|].
  discriminate.
Qed.

Lemma env_trimming_honours_trim : honours_trim env_trimming read_trim media_len.
Proof.
  intros input output s sr ch bytes T A out written Hs Hb.
  pose proof (media_len_Some bytes A Hb) as Hbytes.
  destruct (read_trim_Some s T Hs) as [[-> ->]|[-> ->]];
    destruct Hbytes as [-> |[-> |[-> | ->]]];
    injection Hb as <-; cbn; intros [= _ <-];
    do 2 eexists; (split; [reflexivity|]); (split; [reflexivity|]); reflexivity.
Qed.

(** C3: for an input whose actual duration [A] the inspector obtains and a
    requested duration [d], [convert_to_voice] probes the file and then runs
    exactly the command [ffmpeg -i path -t T ... output] with [T] the
    printed trim length [min(d, A)]: [A] itself when the input is shorter
    than [d] (no padding) and [d] when the input is longer (trimming).  It
    returns [True] exactly when that ffmpeg run exits with status zero and
    the output file is there and not empty, [False] otherwise, and on
    success the output file is what that run left.  So, for every ffmpeg
    that honours [-t] and reads the printed number back, the output of a
    successful conversion lasts [min(d, A)]: it is never longer than [A]
    and never longer than [d].  This holds for every integer [d], in
    particular for those within [MIN_DURATION, MAX_DURATION]. *)
Theorem conversion_trims_to_min `{Runtime} env (w : World) path output d (A : Q) sr ch :
  obtained env w path = Some (Finite A) →
  let t := trim_end d (Finite A) in
  let cmd := ["ffmpeg"; "-i"; path; "-t"; py_str t; "-acodec"; "libopus"; "-ab"; "128k";
              "-ar"; str_int sr; "-ac"; str_int ch; "-vn"; "-y"; output] in
  let r := convert_to_voice env (PyStr path) output (PyInt d) sr ch w in
  emitted w r.2 = [Ran (ffprobe_duration_argv path); Ran cmd] ∧
  (∃ q, py_value t = Some q ∧
        (q == Qmin (inject_Z d) A)%Q ∧ (q <= A)%Q ∧ (q <= inject_Z d)%Q) ∧
  ((A < inject_Z d)%Q → t = PyFloat (Finite A)) ∧
  ((inject_Z d <= A)%Q → t = PyInt d) ∧
  (r.1 = Return true ∨ r.1 = Return false) ∧
  (r.1 = Return true ↔
   ∃ out written, ffmpeg env cmd (fs w !! path) = (CompletedProcess 0 out, written) ∧
                  nonempty_file (output_after w output written) = true) ∧
  (r.1 = Return true →
   fs r.2 !! output = output_after w output (ffmpeg env cmd (fs w !! path)).2) ∧
  (∀ read len bytes,
     honours_trim env read len →
     fs w !! path = Some bytes → len bytes = Some A →
     (∃ T, read (py_str t) = Some T ∧ (T == Qmin (inject_Z d) A)%Q) →
     r.1 = Return true →
     ∃ voice L, fs r.2 !! output = Some voice ∧ voice ≠ "" ∧ len voice = Some L ∧
                (L == Qmin (inject_Z d) A)%Q ∧ (L <= A)%Q ∧ (L <= inject_Z d)%Q ∧
                ((A < inject_Z d)%Q → (L == A)%Q) ∧
                ((inject_Z d <= A)%Q → (L == inject_Z d)%Q)).
Proof.
  intros Hobt. cbn zeta.
  set (t := trim_end d (Finite A)).
  set (cmd := ["ffmpeg"; "-i"; path; "-t"; py_str t; "-acodec"; "libopus"; "-ab"; "128k";
               "-ar"; str_int sr; "-ac"; str_int ch; "-vn"; "-y"; output]).
  assert (cmd = ffmpeg_argv path output t sr ch) as Hcmd by reflexivity.
  rewrite convert_to_voice_run, Hobt. cbn zeta. cbn [fst snd].
  unfold conversion_failure. rewrite Hobt. cbn zeta.
  unfold transcode. fold t. rewrite <- Hcmd.
  destruct (ffmpeg env cmd (fs w !! path)) as [p written] eqn:Hrun. cbn [fst snd].
  assert (∃ q, py_value t = Some q ∧
               (q == Qmin (inject_Z d) A)%Q ∧ (q <= A)%Q ∧ (q <= inject_Z d)%Q) as Hmin.
  { unfold t, trim_end. destruct (float_lt (Finite A) (float_of_Z d)) eqn:Hlt.
    - apply trim_end_float_lt in Hlt. exists A. cbn. split; [done|]. split; [|split].
      + symmetry. apply Q.min_r. by apply Qlt_le_weak.
      + apply Qle_refl.
      + by apply Qlt_le_weak.
    - assert (inject_Z d <= A)%Q as Hle.
      { apply Qnot_lt_le. intros Hc%trim_end_float_lt. congruence. }
      exists (inject_Z d). cbn. split; [done|]. split; [|split].
      + symmetry. by apply Q.min_l.
      + done.
      + apply Qle_refl. }
  assert (fs (mkWorld (user_data w)
                (match written with Some bytes => <[output := bytes]> (fs w) | None => fs w end)
                (trace w ++ [Ran (ffprobe_duration_argv path); Ran cmd])) !! output
          = output_after w output written) as Hout.
  { cbn. destruct written; cbn; [by rewrite lookup_insert_eq|done]. }
  split_and!.
  - by rewrite emitted_app.
  - exact Hmin.
  - intros Hlt. unfold t, trim_end.
    apply trim_end_float_lt in Hlt. by rewrite Hlt.
  - intros Hle. unfold t, trim_end.
    destruct (float_lt (Finite A) (float_of_Z d)) eqn:Hlt; [|done].
    apply trim_end_float_lt in Hlt. exfalso. by apply (Qlt_not_le _ _ Hlt).
  - by destruct (negb _); [left|right].
  - split.
    + destruct p as [rc out| |msg]; [|done..].
      destruct (rc =? 0) eqn:Hrc; [|done]. apply Z.eqb_eq in Hrc as ->. cbn.
      intros Hok. exists out, written. split; [done|].
      destruct (nonempty_file _); [done|discriminate Hok].
    + intros (out & written' & [= -> <-] & Hne). cbn. by rewrite Hne.
  - intros _. exact Hout.
  - intros read len bytes Hhon Hfile Hlen (T & Hread & HT) Hok.
    destruct p as [rc out| |msg]; [|done..].
    destruct (rc =? 0) eqn:Hrc; [|done]. apply Z.eqb_eq in Hrc as ->. cbn in Hok.
    rewrite Hfile in Hrun.
    destruct (Hhon path output (py_str t) (str_int sr) (str_int ch) bytes T A out written
                Hread Hlen Hrun) as (voice & L & -> & HL & HLmin).
    rewrite Hout. cbn [output_after] in Hok |- *.
    assert (L == Qmin (inject_Z d) A)%Q as HLd.
    { rewrite HLmin. rewrite HT. apply Q.min_l. apply Q.le_min_r. }
    exists voice, L. split_and!; try done.
    + intros ->. cbn in Hok. discriminate Hok.
    + rewrite HLd. apply Q.le_min_r.
    + rewrite HLd. apply Q.le_min_l.
    + intros Hlt. rewrite HLd. apply Q.min_r. by apply Qlt_le_weak.
    + intros Hle. rewrite HLd. by apply Q.min_l.
Qed.

(** An input of 30 seconds and a requested duration of 60: ffmpeg is run
    with [-t 30.0], the conversion succeeds and the output lasts 30
    seconds; with an input of 90 seconds it is run with [-t 60] and the
    output lasts 60 seconds. *)
Lemma conversion_trims_to_min_witness :
  let w := mkWorld ∅ {["/srv/song.mp3" := "ID3:30"; "/srv/long.mp3" := "ID3:90"]} [] in
  let short := convert_to_voice (RT := reference_runtime) env_trimming
                 (PyStr "/srv/song.mp3") "/srv/out.ogg" (PyInt 60) 48000 1 w in
  let long := convert_to_voice (RT := reference_runtime) env_trimming
                (PyStr "/srv/long.mp3") "/srv/out.ogg" (PyInt 60) 48000 1 w in
  obtained (RT := reference_runtime) env_trimming w "/srv/song.mp3"
  = Some (Finite (30000000 # 1000000)) ∧
  obtained (RT := reference_runtime) env_trimming w "/srv/long.mp3"
  = Some (Finite (90000000 # 1000000)) ∧
  honours_trim env_trimming read_trim media_len ∧
  emitted w short.2
  = [Ran (ffprobe_duration_argv "/srv/song.mp3");
     Ran ["ffmpeg"; "-i"; "/srv/song.mp3"; "-t"; "30.0"; "-acodec"; "libopus"; "-ab"; "128k";
          "-ar"; "48000"; "-ac"; "1"; "-vn"; "-y"; "/srv/out.ogg"]] ∧
  short.1 = Return true ∧ long.1 = Return true ∧
  (∃ voice L, fs short.2 !! "/srv/out.ogg" = Some voice ∧ media_len voice = Some L ∧
              (L == 30 # 1)%Q) ∧
  (∃ voice L, fs long.2 !! "/srv/out.ogg" = Some voice ∧ media_len voice = Some L ∧
              (L == 60 # 1)%Q).
Proof.
  pose proof (conversion_trims_to_min (H := reference_runtime) env_trimming
                (mkWorld ∅ {["/srv/song.mp3" := "ID3:30"; "/srv/long.mp3" := "ID3:90"]} [])
                "/srv/song.mp3" "/srv/out.ogg" 60 (30000000 # 1000000) 48000 1 eq_refl)
    as (Hem & _ & _ & _ & _ & _ & _ & Hshort).
  pose proof (conversion_trims_to_min (H := reference_runtime) env_trimming
                (mkWorld ∅ {["/srv/song.mp3" := "ID3:30"; "/srv/long.mp3" := "ID3:90"]} [])
                "/srv/long.mp3" "/srv/out.ogg" 60 (90000000 # 1000000) 48000 1 eq_refl)
    as (_ & _ & _ & _ & _ & _ & _ & Hlong).
  cbn zeta in Hem, Hshort, Hlong.
  assert ((convert_to_voice (RT := reference_runtime) env_trimming
             (PyStr "/srv/song.mp3") "/srv/out.ogg" (PyInt 60) 48000 1
             (mkWorld ∅ {["/srv/song.mp3" := "ID3:30"; "/srv/long.mp3" := "ID3:90"]} [])).1
          = Return true) as Hs by (vm_compute; reflexivity).
  assert ((convert_to_voice (RT := reference_runtime) env_trimming
             (PyStr "/srv/long.mp3") "/srv/out.ogg" (PyInt 60) 48000 1
             (mkWorld ∅ {["/srv/song.mp3" := "ID3:30"; "/srv/long.mp3" := "ID3:90"]} [])).1
          = Return true) as Hl by (vm_compute; reflexivity).
  split; [reflexivity|]. split; [reflexivity|].
  split; [exact env_trimming_honours_trim|].
  split; [exact Hem|]. split; [exact Hs|]. split; [exact Hl|]. split.
  - destruct (Hshort read_trim media_len "ID3:30" env_trimming_honours_trim eq_refl eq_refl)
      as (voice & L & Hv & _ & HL & Hmin & _); [|exact Hs|].
    + exists (30 # 1)%Q. split; reflexivity.
    + exists voice, L. split; [exact Hv|]. split; [exact HL|]. rewrite Hmin. reflexivity.
  - destruct (Hlong read_trim media_len "ID3:90" env_trimming_honours_trim eq_refl eq_refl)
      as (voice & L & Hv & _ & HL & Hmin & _); [|exact Hl|].
    + exists (60 # 1)%Q. split; reflexivity.
    + exists voice, L. split; [exact Hv|]. split; [exact HL|]. rewrite Hmin. reflexivity.
Defined.



(** A missing or empty output file is a failure even when the transcoder
    exited with status zero. *)
Lemma empty_output_is_failure `{Runtime} env (w : World) path output d a out sr ch :
  obtained env w path = Some a →
  (transcode env w path output d a sr ch).1 = CompletedProcess 0 out →
  nonempty_file (output_after w output (transcode env w path output d a sr ch).2) = false →
  (convert_to_voice env (PyStr path) output (PyInt d) sr ch w).1 = Return false.
Proof.
  intros Hobt Hrun Hout.
  rewrite convert_to_voice_run, Hobt. cbn zeta. cbn [fst].
  unfold conversion_failure. rewrite Hobt. cbn zeta. rewrite Hrun, Hout. done.
Qed.

(** ** Duration replies *)

Ltac hunfold :=
  unfold step, handler, handle_audio, handle_text, cancel,
    with_tempdir, reply_voice, get_file, size_gt, media_file_name, ud_get_default,
    try_except, mbind, M_bind, bind, mret, M_ret, ret, raise,
    ud_get, ud_item, ud_set, reply_text, edit_text, emit, read_file, write_file in *.

(** [handle_text] on a valid duration, in terms of what the conversion
    returns. *)
Lemma handle_text_valid `{Runtime} (w : World) u env d b w2 :
  truthy (default PyNone (user_data w !! "file_path")) = true →
  py_int (msg_text u) = Some d →
  (d <? 1) || (MAX_DURATION <? d) = false →
  convert_to_voice env (default PyNone (user_data w !! "file_path"))
    (path_join (tmpname env) "output.ogg") (PyInt d) 48000 1 (converting w d)
  = (Return b, w2) →
  step w (TextReceived u env)
  = if b then
      match fs w2 !! path_join (tmpname env) "output.ogg" with
      | Some bytes =>
          mkWorld (<["file_path" := PyNone]>
                     (<["target_duration" := PyNone]>
                        (<["processing" := PyBool false]> (user_data w2))))
                  (rmtree (tmpname env) (fs w2))
                  (trace w2 ++ [ReplyVoice bytes (PyInt d)
                                  ("Duration: " +:+ str_int d +:+ "s")])
      | None =>
          mkWorld (user_data w2) (rmtree (tmpname env) (fs w2))
                  (trace w2 ++ [Reply "An error occurred. Please try again."])
      end
    else
      mkWorld (user_data w2) (rmtree (tmpname env) (fs w2))
              (trace w2 ++ [Reply "Failed to process audio. Please try again."]).
Proof.
  intros Hp Hd Hrange Hconv. unfold converting in Hconv.
  hunfold. cbn. rewrite Hp. cbn. rewrite Hd, Hrange. cbn.
  rewrite lookup_insert_ne by done.
  destruct (user_data w !! "file_path") as [input|] eqn:Hin; [|done].
  cbn in Hconv |- *. rewrite Hconv. cbn.
  destruct b; cbn; [|done].
  by destruct (fs w2 !! _).
Qed.

(** Whatever its arguments, [convert_to_voice] leaves the dict alone, only
    adds to the trace and writes no file but the output file. *)
Lemma convert_to_voice_frame `{Runtime} env input output target sr ch (w : World) :
  let w2 := (convert_to_voice env input output target sr ch w).2 in
  user_data w2 = user_data w ∧
  (∀ p, p ≠ output → fs w2 !! p = fs w !! p) ∧
  (∃ l : list effect, trace w2 = (trace w ++ l)%list ∧ existsb is_prompt l = false ∧ existsb is_voice l = false).
Proof.
  cbn zeta. munfold. cbn.
  repeat (case_match; simplify_eq; cbn);
    (split; [done|]);
    (split; [intros q Hq; rewrite ?lookup_insert_ne by done; done|]);
    rewrite <- ?app_assoc; eexists; (split; [try reflexivity; by rewrite app_nil_r|]); done.
Qed.

(** What the inspector obtains depends on the probed file only. *)
Lemma obtained_ext `{Runtime} env (w1 w2 : World) path :
  fs w1 !! path = fs w2 !! path → obtained env w1 path = obtained env w2 path.
Proof. intros Hfs. unfold obtained. by rewrite !get_duration_result, Hfs. Qed.

(** Every text that does not start a conversion is answered with one
    message and changes nothing. *)
Lemma handle_text_invalid `{Runtime} (w : World) u env :
  truthy (default PyNone (user_data w !! "file_path")) = false
  ∨ py_int (msg_text u) = None
  ∨ (∃ v, py_int (msg_text u) = Some v ∧ (v <? 1) || (MAX_DURATION <? v) = true) →
  ∃ msg, step w (TextReceived u env)
         = mkWorld (user_data w) (fs w) (trace w ++ [Reply msg]).
Proof.
  intros Hcase. hunfold. cbn.
  destruct (truthy (default PyNone (user_data w !! "file_path"))); cbn; [|by eexists].
  destruct Hcase as [?|[-> | (v & -> & ->)]]; [done|by eexists..].
Qed.

(** Either a text starts a conversion for a duration within bounds, or it is
    one of the texts of [handle_text_invalid]. *)
Lemma handle_text_cases `{Runtime} (w : World) u :
  (∃ d, truthy (default PyNone (user_data w !! "file_path")) = true ∧
        py_int (msg_text u) = Some d ∧ (d <? 1) || (MAX_DURATION <? d) = false)
  ∨ (truthy (default PyNone (user_data w !! "file_path")) = false
     ∨ py_int (msg_text u) = None
     ∨ (∃ v, py_int (msg_text u) = Some v ∧ (v <? 1) || (MAX_DURATION <? v) = true)).
Proof.
  destruct (truthy (default PyNone (user_data w !! "file_path"))); [|auto].
  destruct (py_int (msg_text u)) as [d|]; [|auto].
  destruct ((d <? 1) || (MAX_DURATION <? d)) eqn:Hd.
  - right. right. right. by exists d.
  - left. by exists d.
Qed.

Lemma truthy_pending_not_str (w : World) :
  truthy (default PyNone (user_data w !! "file_path")) = true →
  (∃ path, user_data w !! "file_path" = Some (PyStr path))
  ∨ (∀ s, default PyNone (user_data w !! "file_path") ≠ PyStr s).
Proof.
  destruct (user_data w !! "file_path") as [v|]; [|discriminate].
  destruct v; intros _; [right; discriminate..|left; by eexists].
Qed.

Lemma voice_in_trace voice dur caption (l : list effect) :
  In (ReplyVoice voice dur caption) l → existsb is_voice l = true.
Proof. intros Hin. apply existsb_exists. by exists (ReplyVoice voice dur caption). Qed.

(** C10: whenever [handle_text] delivers a voice message, its duration
    annotation is the requested duration [d] and its caption is
    ["Duration: <d>s"], while the transcoder was run with the trim length
    [min(d, A)] for the actual duration [A] the inspector obtained: for
    [A < d] the audio sent lasts [A] and is still announced as [d]. *)
Theorem voice_reply_states_requested_duration `{Runtime} (w : World) u env
    voice dur caption :
  In (ReplyVoice voice dur caption) (emitted w (step w (TextReceived u env))) →
  ∃ d path A,
    py_int (msg_text u) = Some d ∧ MIN_DURATION ≤ d ≤ MAX_DURATION ∧
    dur = PyInt d ∧ caption = "Duration: " +:+ str_int d +:+ "s" ∧
    user_data w !! "file_path" = Some (PyStr path) ∧
    obtained env w path = Some A ∧
    In (Ran (ffmpeg_argv path (path_join (tmpname env) "output.ogg")
               (trim_end d A) 48000 1))
       (emitted w (step w (TextReceived u env))).
Proof.
  intros Hin.
  destruct (handle_text_cases w u) as [(d & Hp & Hd & Hrange)|Hinv].
  2: { destruct (handle_text_invalid w u env Hinv) as [msg Hstep].
       rewrite Hstep, emitted_app in Hin. by apply voice_in_trace in Hin. }
  destruct (truthy_pending_not_str w Hp) as [[path Hpath]|Hns].
  2: { rewrite (handle_text_valid w u env d false (converting w d) Hp Hd Hrange) in Hin
         by (by apply convert_to_voice_not_str).
       unfold converting in Hin. cbn [trace] in Hin.
       rewrite <- app_assoc, emitted_app in Hin. by apply voice_in_trace in Hin. }
  pose proof (convert_to_voice_run env path (path_join (tmpname env) "output.ogg")
                d 48000 1 (converting w d)) as Hrun.
  rewrite (obtained_ext env (converting w d) w path) in Hrun by done.
  destruct (obtained env w path) as [A|] eqn:Hobt.
  2: { rewrite (handle_text_valid w u env d false _ Hp Hd Hrange) in Hin
         by (rewrite Hpath; exact Hrun).
       cbn [trace converting] in Hin.
       rewrite <- !app_assoc, emitted_app in Hin. by apply voice_in_trace in Hin. }
  cbn zeta in Hrun.
  rewrite (handle_text_valid w u env d _ _ Hp Hd Hrange) in Hin |- *
    by (rewrite Hpath; exact Hrun).
  destruct (negb (conversion_failure _ _ _ _ _ _ _)).
  2: { cbn [trace converting] in Hin.
       rewrite <- !app_assoc, emitted_app in Hin. by apply voice_in_trace in Hin. }
  cbn [fs trace user_data converting] in Hin |- *.
  exists d, path, A.
  assert (MIN_DURATION ≤ d ≤ MAX_DURATION) as Hb.
  { apply orb_false_iff in Hrange. unfold MIN_DURATION. lia. }
  destruct (_ !! path_join (tmpname env) "output.ogg") as [bytes|];
    cbn [fs trace user_data converting] in Hin |- *;
    rewrite <- !app_assoc, emitted_app in Hin |- *.
  - destruct Hin as [Heq|[Heq|[Heq|[Heq|[]]]]]; try discriminate Heq.
    injection Heq as <- <- <-. split_and!; auto; try apply Hb.
    cbn. right. right. by left.
  - by apply voice_in_trace in Hin.
Qed.

(** A 30-second file and the reply ["60"]: the voice message is announced
    as 60 seconds while ffmpeg was run with [-t 30.0]. *)
Lemma voice_reply_states_requested_duration_witness :
  let w := awaiting "/srv/song.mp3" {["/srv/song.mp3" := "ID3."]} in
  let w' := step (RT := reference_runtime) w (TextReceived (text_update "60") env_short) in
  In (ReplyVoice "OggS" (PyInt 60) "Duration: 60s") (emitted w w') ∧
  In (Ran ["ffmpeg"; "-i"; "/srv/song.mp3"; "-t"; "30.0"; "-acodec"; "libopus";
           "-ab"; "128k"; "-ar"; "48000"; "-ac"; "1"; "-vn"; "-y";
           "/tmp/tmpd4/output.ogg"]) (emitted w w') ∧
  ∃ d path A,
    @py_int reference_runtime "60" = Some d ∧
    MIN_DURATION ≤ d ≤ @MAX_DURATION reference_runtime ∧
    PyInt 60 = PyInt d ∧ "Duration: 60s" = "Duration: " +:+ str_int d +:+ "s" ∧
    user_data w !! "file_path" = Some (PyStr path) ∧
    obtained (RT := reference_runtime) env_short w path = Some A ∧
    In (Ran (ffmpeg_argv (RT := reference_runtime) path
               (path_join (tmpname env_short) "output.ogg") (trim_end d A) 48000 1))
       (emitted w w').
Proof.
  assert (In (ReplyVoice "OggS" (PyInt 60) "Duration: 60s")
             (emitted (awaiting "/srv/song.mp3" {["/srv/song.mp3" := "ID3."]})
                (step (RT := reference_runtime)
                   (awaiting "/srv/song.mp3" {["/srv/song.mp3" := "ID3."]})
                   (TextReceived (text_update "60") env_short)))) as Hin.
  { vm_compute. right. right. right. left. reflexivity. }
  split; [exact Hin|]. split.
  { vm_compute. right. right. left. reflexivity. }
  exact (voice_reply_states_requested_duration (H := reference_runtime)
           (awaiting "/srv/song.mp3" {["/srv/song.mp3" := "ID3."]})
           (text_update "60") env_short "OggS" (PyInt 60) "Duration: 60s" Hin).
Defined.

(** ** Files and directories *)

Lemma rmtree_lookup dir (files : gmap string string) p :
  rmtree dir files !! p = if in_dir dir p then None else files !! p.
Proof.
  unfold rmtree. destruct (in_dir dir p) eqn:Hd.
  - apply map_lookup_filter_None. right. intros x _. cbn. fold (in_dir dir p). congruence.
  - destruct (files !! p) eqn:Hm.
    + by apply map_lookup_filter_Some.
    + apply map_lookup_filter_None. by left.
Qed.

Lemma prefix_append (a b : string) : String.prefix a (a +:+ b) = true.
Proof.
  induction a as [|c a IH].
  - change ("" +:+ b) with b. by destruct b.
  - change (String c a +:+ b) with (String c (a +:+ b)). cbn.
    by destruct (ascii_dec c c).
Qed.

Lemma append_assoc (a b c : string) : (a +:+ b) +:+ c = a +:+ (b +:+ c).
Proof.
  induction a as [|x a IH]; [done|].
  change (String x (a +:+ b) +:+ c = String x (a +:+ (b +:+ c))). by rewrite <- IH.
Qed.

Lemma in_dir_join dir name :
  String.prefix "/" name = false → in_dir dir (path_join dir name) = true.
Proof.
  intros Hrel. unfold in_dir, path_join. rewrite Hrel.
  rewrite <- append_assoc. apply prefix_append.
Qed.

Lemma in_dir_output dir : in_dir dir (path_join dir "output.ogg") = true.
Proof. by apply in_dir_join. Qed.

Lemma dir_absent_rmtree dir files : dir_absent dir (rmtree dir files).
Proof. intros p Hp. by rewrite rmtree_lookup, Hp. Qed.

Lemma has_slash_prefix n : has_slash n = false → String.prefix "/" n = false.
Proof.
  destruct n as [|c n]; [done|]. cbn -[ascii_dec]. intros [Hc _]%orb_false_iff.
  destruct (ascii_dec "/" c) as [<-|]; [|done].
  by rewrite Ascii.eqb_refl in Hc.
Qed.

Lemma plain_name_relative name : plain_name name = true → relative_name name = true.
Proof.
  destruct name as [n|]; [|done]. cbn.
  intros [[Hs%negb_true_iff _]%andb_true_iff _]%andb_true_iff.
  by rewrite (has_slash_prefix n Hs).
Qed.

Lemma plain_upload_relative u : plain_upload u = true → relative_upload u = true.
Proof.
  unfold plain_upload, relative_upload.
  destruct (message_media u) as [[f|f|v]|]; try done; apply plain_name_relative.
Qed.

Lemma plain_event_relative ev : plain_event ev = true → relative_event ev = true.
Proof. destruct ev; try done. apply plain_upload_relative. Qed.

(** ** Uploads *)

Lemma accepted_upload_Some (w : World) u env name bytes :
  accepted_upload w u env = Some (name, bytes) →
  truthy (default PyNone (user_data w !! "processing")) = false ∧
  ∃ f n, (message_media u = Some (MAudio f) ∨ message_media u = Some (MDocument f)) ∧
         file_size f = Some n ∧ (50 * 1024 * 1024 <? n) = false ∧
         telegram_file env = inl bytes ∧
         name = name_or (file_name f) ("audio_" +:+ str_int (user_id u)).
Proof.
  unfold accepted_upload.
  destruct (truthy (default PyNone (user_data w !! "processing"))); [done|].
  intros Hacc. split; [done|].
  destruct (message_media u) as [[f|f|v]|]; try done;
    (destruct (file_size f) as [n|] eqn:Hs; [|done]);
    (destruct (telegram_file env) as [b|] eqn:Hg; [|done]);
    (destruct (50 * 1024 * 1024 <? n) eqn:Hn; [done|]);
    injection Hacc as <- <-; exists f, n; split_and!; auto.
Qed.

(** An upload that is not stored: the busy session, the message without
    media, the unknown or excessive size, the voice message and the failed
    download.  Only ['processing'] is written, no file is touched, nothing is
    run, and neither a prompt nor a voice message is sent. *)
Lemma handle_audio_rejected `{Runtime} (w : World) u env :
  accepted_upload w u env = None →
  ∃ l : list effect,
    step w (FileUploaded u env)
    = mkWorld (if truthy (default PyNone (user_data w !! "processing")) then user_data w
               else <["processing" := PyBool false]> (user_data w))
              (fs w) (trace w ++ l)%list ∧
    existsb is_prompt l = false ∧ existsb is_voice l = false ∧ existsb is_ran l = false.
Proof.
  unfold accepted_upload. hunfold. cbn.
  destruct (truthy (default PyNone (user_data w !! "processing"))); cbn.
  { intros _. by eexists. }
  destruct (message_media u) as [[f|f|v]|]; cbn.
  1,2: destruct (file_size f) as [n|]; cbn;
    [destruct (50 * 1024 * 1024 <? n); cbn;
     [|destruct (telegram_file env) as [b|msg]; [done|]; cbn]|];
    intros _; rewrite insert_insert_eq, <- ?app_assoc; by eexists.
  - destruct (voice_file_size v) as [n|]; cbn; [destruct (50 * 1024 * 1024 <? n); cbn|];
      intros _; rewrite insert_insert_eq, <- ?app_assoc; by eexists.
  - intros _; rewrite insert_insert_eq, <- ?app_assoc; by eexists.
Qed.

(** A stored upload while no target duration is known: the path is
    recorded, the file is probed and the user is prompted; when ffprobe
    cannot be started the error is reported instead.  Either way the
    temporary directory is removed. *)
Lemma handle_audio_prompt `{Runtime} (w : World) u env name bytes :
  accepted_upload w u env = Some (name, bytes) →
  truthy (default PyNone (user_data w !! "target_duration")) = false →
  let input := path_join (tmpname env) name in
  step w (FileUploaded u env)
  = match ffprobe env (ffprobe_duration_argv input) (Some bytes) with
    | SpawnFailed msg =>
        mkWorld (<["processing" := PyBool false]>
                   (<["file_path" := PyStr input]>
                      (<["processing" := PyBool true]> (user_data w))))
                (rmtree (tmpname env) (<[input := bytes]> (fs w)))
                (trace w ++ [Reply "Downloading file...";
                             Ran (ffprobe_duration_argv input);
                             Reply ("An error occurred: " +:+ msg +:+ nl +:+ nl
                                    +:+ "Please try again.")])
    | _ =>
        mkWorld (<["file_path" := PyStr input]>
                   (<["processing" := PyBool true]> (user_data w)))
                (rmtree (tmpname env) (<[input := bytes]> (fs w)))
                (trace w ++ [Reply "Downloading file...";
                             Ran (ffprobe_duration_argv input);
                             EditText ("File received! Current duration: "
                                       +:+ from_option (λ d, py_str (PyFloat d)) "None"
                                             (obtained env (downloaded w input bytes) input)
                                       +:+ "s" +:+ nl +:+ nl
                                       +:+ "Reply with desired duration (1-"
                                       +:+ str_int MAX_DURATION +:+ " seconds):")])
    end.
Proof.
  intros (Hp & f & n & Hm & Hsize & Hn & Htg & ->)%accepted_upload_Some Ht. cbn zeta.
  set (input := path_join _ _).
  unfold obtained.
  pose proof (get_duration_result env input
                (mkWorld (<["file_path" := PyStr input]> (user_data (downloaded w input bytes)))
                   (fs (downloaded w input bytes)) (trace (downloaded w input bytes)))) as Hr.
  pose proof (get_duration_world env input
                (mkWorld (<["file_path" := PyStr input]> (user_data (downloaded w input bytes)))
                   (fs (downloaded w input bytes)) (trace (downloaded w input bytes)))) as Hw.
  pose proof (get_duration_result env input (downloaded w input bytes)) as Hr'.
  cbn [fs downloaded] in Hr, Hr'. rewrite lookup_insert_eq in Hr, Hr'.
  rewrite Hr'. clear Hr'.
  hunfold. cbn. rewrite Hp. cbn.
  destruct Hm as [-> | ->]; cbn; rewrite Hsize; cbn; rewrite Hn; cbn; rewrite Htg; cbn;
    fold input; rewrite lookup_insert_ne by done; rewrite Ht; cbn;
    unfold downloaded in Hr, Hw; cbn in Hr, Hw;
    match goal with
    | |- context [get_duration env input ?w0] =>
        destruct (get_duration env input w0) as [r w1]
    end; cbn in Hr, Hw; subst r w1;
    destruct (ffprobe env _ _) as [rc out| |msg]; cbn; rewrite <- ?app_assoc;
    try destruct (rc =? 0); try destruct (py_float _); done.
Qed.

(** A stored upload while a target duration is known, in terms of what the
    conversion returns. *)
Lemma handle_audio_convert `{Runtime} (w : World) u env name bytes t b w2 :
  accepted_upload w u env = Some (name, bytes) →
  user_data w !! "target_duration" = Some t →
  truthy t = true →
  let input := path_join (tmpname env) name in
  let output := path_join (tmpname env) "output.ogg" in
  convert_to_voice env (PyStr input) output t 48000 1 (uploading w input bytes)
  = (Return b, w2) →
  step w (FileUploaded u env)
  = if b then
      match fs w2 !! output with
      | Some voice =>
          mkWorld (<["file_path" := PyNone]>
                     (<["target_duration" := PyNone]>
                        (<["processing" := PyBool false]> (user_data w2))))
                  (rmtree (tmpname env) (fs w2))
                  (trace w2 ++ [EditText "Sending voice message...";
                                ReplyVoice voice t ("Duration: " +:+ py_str t +:+ "s");
                                EditText "✅ Done!"])
      | None =>
          mkWorld (<["processing" := PyBool false]> (user_data w2))
                  (rmtree (tmpname env) (fs w2))
                  (trace w2 ++ [EditText "Sending voice message...";
                                Reply ("An error occurred: " +:+ output +:+ nl +:+ nl
                                       +:+ "Please try again.")])
      end
    else
      mkWorld (<["processing" := PyBool false]> (user_data w2))
              (rmtree (tmpname env) (fs w2))
              (trace w2 ++ [EditText "Failed to process audio. Please try again."]).
Proof.
  intros (Hp & f & n & Hm & Hsize & Hn & Htg & ->)%accepted_upload_Some Ht Htr. cbn zeta.
  change (path_join (tmpname env) "output.ogg") with (tmpname env +:+ "/" +:+ "output.ogg").
  set (input := path_join _ _). set (output := _ +:+ _).
  unfold uploading. intros Hconv.
  hunfold. cbn. rewrite Hp. cbn.
  destruct Hm as [-> | ->]; cbn; rewrite Hsize; cbn; rewrite Hn; cbn; rewrite Htg; cbn;
    fold input; fold output; rewrite lookup_insert_ne by done; rewrite Ht; cbn;
    rewrite Htr; cbn; rewrite <- app_assoc; cbn; fold output;
    rewrite ?lookup_insert_ne by done; rewrite ?Ht; cbn; rewrite Hconv; cbn;
    (destruct b; cbn; [|done]);
    destruct (fs w2 !! output); cbn; rewrite <- ?app_assoc; done.
Qed.

Lemma accepted_upload_in_dir (w : World) u env name bytes :
  accepted_upload w u env = Some (name, bytes) →
  relative_upload u = true →
  in_dir (tmpname env) (path_join (tmpname env) name) = true.
Proof.
  intros (_ & f & n & Hm & _ & _ & _ & ->)%accepted_upload_Some Hrel.
  apply in_dir_join.
  assert (relative_name (file_name f) = true) as Hf.
  { unfold relative_upload in Hrel. by destruct Hm as [Hm|Hm]; rewrite Hm in Hrel. }
  unfold name_or. destruct (file_name f) as [s|]; [|done].
  destruct (String.eqb s ""); [done|].
  cbn in Hf. by apply negb_true_iff in Hf.
Qed.

(** What running the conversion leaves behind, whatever it returns. *)
Lemma convert_to_voice_result `{Runtime} env input output target sr ch (w : World) :
  ∃ b w2, convert_to_voice env input output target sr ch w = (Return b, w2) ∧
    user_data w2 = user_data w ∧
    (∀ p, p ≠ output → fs w2 !! p = fs w !! p) ∧
    ∃ l : list effect, trace w2 = (trace w ++ l)%list ∧
      existsb is_prompt l = false ∧ existsb is_voice l = false.
Proof.
  destruct (convert_to_voice_total env input output target sr ch w) as [b Hb].
  pose proof (convert_to_voice_frame env input output target sr ch w) as Hf.
  destruct (convert_to_voice env input output target sr ch w) as [r w2].
  cbn in Hb, Hf. subst r. by exists b, w2.
Qed.

(** Every handler leaves the files outside its temporary directory alone
    and creates none that outlives it; the pending path it leaves is the
    one it found, [None], or the path of a file that is gone. *)
Lemma step_frame `{Runtime} (w : World) ev :
  relative_event ev = true →
  let w' := step w ev in
  (∀ p, fs w' !! p = None ∨ fs w' !! p = fs w !! p) ∧
  (user_data w' !! "file_path" = user_data w !! "file_path"
   ∨ user_data w' !! "file_path" = Some PyNone
   ∨ ∃ p, user_data w' !! "file_path" = Some (PyStr p) ∧ fs w' !! p = None).
Proof.
  intros Hrel. cbn zeta. destruct ev as [|u env|u env].
  - hunfold. cbn.
    destruct (truthy (default PyNone (user_data w !! "processing"))); cbn.
    + split; [auto|]. left. by rewrite lookup_insert_ne.
    + split; auto.
  - destruct (accepted_upload w u env) as [[name bytes]|] eqn:Hacc.
    2: { destruct (handle_audio_rejected w u env Hacc) as (l & -> & _). cbn.
         split; [auto|]. left.
         destruct (truthy _); [done|]. by rewrite lookup_insert_ne. }
    pose proof (accepted_upload_in_dir w u env name bytes Hacc Hrel) as Hin.
    set (input := path_join (tmpname env) name) in *.
    assert (∀ p, rmtree (tmpname env) (<[input := bytes]> (fs w)) !! p = None
                 ∨ rmtree (tmpname env) (<[input := bytes]> (fs w)) !! p = fs w !! p) as Hfs.
    { intros p. rewrite rmtree_lookup. destruct (in_dir (tmpname env) p) eqn:Hp; [by left|].
      right. apply lookup_insert_ne. intros <-. congruence. }
    destruct (truthy (default PyNone (user_data w !! "target_duration"))) eqn:Ht.
    + destruct (user_data w !! "target_duration") as [t|] eqn:Hlk; [|done]. cbn in Ht.
      destruct (convert_to_voice_result env (PyStr input)
                  (path_join (tmpname env) "output.ogg") t 48000 1
                  (uploading w input bytes)) as (b & w2 & Hconv & Hud & Hfs2 & _).
      rewrite (handle_audio_convert w u env name bytes t b w2 Hacc Hlk Ht Hconv).
      assert (∀ p, rmtree (tmpname env) (fs w2) !! p = None
                   ∨ rmtree (tmpname env) (fs w2) !! p = fs w !! p) as Hfs'.
      { intros p. rewrite rmtree_lookup.
        destruct (in_dir (tmpname env) p) eqn:Hp; [by left|]. right.
        rewrite Hfs2 by (intros ->; by rewrite in_dir_output in Hp).
        cbn. apply lookup_insert_ne. intros <-. congruence. }
      destruct b; [destruct (fs w2 !! _)|]; cbn; (split; [exact Hfs'|]).
      * right. left. by rewrite lookup_insert_eq.
      * left. rewrite lookup_insert_ne, Hud by done. cbn. by rewrite lookup_insert_ne.
      * left. rewrite lookup_insert_ne, Hud by done. cbn. by rewrite lookup_insert_ne.
    + rewrite (handle_audio_prompt w u env name bytes Hacc Ht). fold input.
      destruct (ffprobe env _ _); cbn; (split; [exact Hfs|]); right; right; exists input.
      * rewrite lookup_insert_eq. split; [done|]. by rewrite rmtree_lookup, Hin.
      * rewrite lookup_insert_eq. split; [done|]. by rewrite rmtree_lookup, Hin.
      * rewrite lookup_insert_ne, lookup_insert_eq by done.
        split; [done|]. by rewrite rmtree_lookup, Hin.
  - destruct (handle_text_cases w u) as [(d & Hp & Hd & Hrange)|Hinv].
    2: { destruct (handle_text_invalid w u env Hinv) as [msg ->]. cbn. auto. }
    destruct (convert_to_voice_result env (default PyNone (user_data w !! "file_path"))
                (path_join (tmpname env) "output.ogg") (PyInt d) 48000 1
                (converting w d)) as (b & w2 & Hconv & Hud & Hfs2 & _).
    rewrite (handle_text_valid w u env d b w2 Hp Hd Hrange Hconv).
    assert (∀ p, rmtree (tmpname env) (fs w2) !! p = None
                 ∨ rmtree (tmpname env) (fs w2) !! p = fs w !! p) as Hfs'.
    { intros p. rewrite rmtree_lookup.
      destruct (in_dir (tmpname env) p) eqn:Hq; [by left|]. right.
      by rewrite Hfs2 by (intros ->; by rewrite in_dir_output in Hq). }
    destruct b; [destruct (fs w2 !! _)|]; cbn; (split; [exact Hfs'|]).
    * right. left. by rewrite lookup_insert_eq.
    * left. rewrite Hud. cbn. by rewrite lookup_insert_ne.
    * left. rewrite Hud. cbn. by rewrite lookup_insert_ne.
Qed.

Lemma step_pending_missing `{Runtime} (w : World) ev :
  relative_event ev = true → pending_missing w → pending_missing (step w ev).
Proof.
  intros Hrel Hpm. destruct (step_frame w ev Hrel) as [Hfs Hfp].
  intros p Hp. destruct Hfp as [Heq|[Hnone|(q & Hq & Hgone)]].
  - rewrite Heq in Hp. destruct (Hfs p) as [?| ->]; [done|]. by apply Hpm.
  - congruence.
  - rewrite Hq in Hp. by injection Hp as <-.
Qed.

Lemma run_pending_missing `{Runtime} evs (w : World) :
  Forall (λ ev, relative_event ev = true) evs → pending_missing w →
  pending_missing (run w evs).
Proof.
  intros Hall. revert w. induction Hall as [|ev evs Hev _ IH]; intros w Hpm; [done|].
  cbn. apply IH. by apply step_pending_missing.
Qed.

Lemma path_join_nonempty dir name : truthy (PyStr (path_join dir name)) = true.
Proof.
  cbn. apply negb_true_iff. unfold path_join.
  destruct (String.prefix "/" name) eqn:Hn.
  - by destruct name.
  - destruct dir; [|done]. change ("" +:+ "/" +:+ name) with (String "/" name). done.
Qed.

(** A duration reply in a session whose pending file is missing, when
    ffprobe needs the file. *)
Lemma obtained_missing `{Runtime} env (w : World) path :
  probe_needs_file env → fs w !! path = None → obtained env w path = None.
Proof.
  intros Hprobe Hfs. unfold obtained. rewrite get_duration_result, Hfs.
  destruct (ffprobe env _ None) as [rc out| |msg] eqn:Hp; [|done..].
  destruct (rc =? 0) eqn:Hrc; [|done].
  apply Z.eqb_eq in Hrc as ->. by destruct (Hprobe _ _ Hp).
Qed.

Lemma handle_text_missing `{Runtime} (w : World) u env :
  pending_missing w → probe_needs_file env →
  ∃ l : list effect,
    emitted w (step w (TextReceived u env)) = l ∧
    existsb is_voice l = false ∧ existsb is_ffmpeg l = false ∧
    ∀ path d, user_data w !! "file_path" = Some (PyStr path) → path ≠ "" →
              py_int (msg_text u) = Some d → (d <? 1) || (MAX_DURATION <? d) = false →
              l = [Reply "Processing audio..."; Ran (ffprobe_duration_argv path);
                   Reply "Failed to process audio. Please try again."].
Proof.
  intros Hpm Hprobe. eexists. split; [reflexivity|].
  destruct (handle_text_cases w u) as [(d & Hp & Hd & Hrange)|Hinv].
  2: { destruct (handle_text_invalid w u env Hinv) as [msg Hstep].
       rewrite Hstep, emitted_app. split_and!; [done..|].
       intros path d Hpath Hne Hd Hrange.
       destruct Hinv as [Hf|[Hn|(v & Hv & Hout)]]; [|congruence..].
       rewrite Hpath in Hf. cbn in Hf. apply negb_false_iff in Hf.
       by apply String.eqb_eq in Hf. }
  destruct (truthy_pending_not_str w Hp) as [[path Hpath]|Hns].
  2: { rewrite (handle_text_valid w u env d false (converting w d) Hp Hd Hrange)
         by (by apply convert_to_voice_not_str).
       unfold converting. cbn [trace fs user_data].
       rewrite <- app_assoc, emitted_app. split_and!; [done..|].
       intros path' d' Hpath'. rewrite Hpath' in Hns. by destruct (Hns path'). }
  pose proof (convert_to_voice_run env path (path_join (tmpname env) "output.ogg")
                d 48000 1 (converting w d)) as Hrun.
  rewrite (obtained_ext env (converting w d) w path) in Hrun by done.
  rewrite (obtained_missing env w path Hprobe (Hpm path Hpath)) in Hrun.
  rewrite (handle_text_valid w u env d false _ Hp Hd Hrange) by (rewrite Hpath; exact Hrun).
  cbn [trace converting]. rewrite <- !app_assoc, emitted_app.
  split_and!; [done..|].
  intros path' d' Hpath' _ Hd' _.
  rewrite Hpath in Hpath'. by injection Hpath' as <-.
Qed.

(** ** The pending file *)

(** X1: when the upload handler has prompted for a duration, the path it
    stored lies in the temporary directory of that update, nothing is left
    under that directory, so the stored path names no file, and the session
    awaits a duration. *)
Theorem acknowledged_upload_is_gone `{Runtime} (w : World) u env :
  plain_upload u = true →
  prompted w (step w (FileUploaded u env)) = true →
  let w' := step w (FileUploaded u env) in
  ∃ path, user_data w' !! "file_path" = Some (PyStr path) ∧
          in_dir (tmpname env) path = true ∧
          dir_absent (tmpname env) (fs w') ∧
          fs w' !! path = None ∧
          status (user_data w') = AwaitingDuration.
Proof.
  intros Hrel%plain_upload_relative. cbn zeta. unfold prompted.
  destruct (accepted_upload w u env) as [[name bytes]|] eqn:Hacc.
  2: { destruct (handle_audio_rejected w u env Hacc) as (l & -> & Hl & _).
       rewrite emitted_app. congruence. }
  pose proof (accepted_upload_in_dir w u env name bytes Hacc Hrel) as Hin.
  destruct (truthy (default PyNone (user_data w !! "target_duration"))) eqn:Ht.
  - destruct (user_data w !! "target_duration") as [t|] eqn:Hlk; [|done]. cbn in Ht.
    destruct (convert_to_voice_result env (PyStr (path_join (tmpname env) name))
                (path_join (tmpname env) "output.ogg") t 48000 1
                (uploading w (path_join (tmpname env) name) bytes))
      as (b & w2 & Hconv & _ & _ & l & Hl & Hnp & _).
    rewrite (handle_audio_convert w u env name bytes t b w2 Hacc Hlk Ht Hconv).
    intros Hpr. exfalso. revert Hpr.
    destruct b; [destruct (fs w2 !! _)|]; cbn [trace]; rewrite Hl; cbn [trace uploading];
      rewrite <- !app_assoc, emitted_app; cbn [app existsb is_prompt];
      rewrite existsb_app, Hnp; cbn; discriminate.
  - rewrite (handle_audio_prompt w u env name bytes Hacc Ht).
    set (input := path_join (tmpname env) name) in *.
    assert (status (<["file_path" := PyStr input]>
                      (<["processing" := PyBool true]> (user_data w))) = AwaitingDuration)
      as Hst.
    { unfold status. rewrite lookup_insert_ne, !lookup_insert_eq by done.
      rewrite !lookup_insert_ne by done. cbn [default id]. rewrite Ht.
      unfold input. by rewrite path_join_nonempty. }
    destruct (ffprobe env _ _) as [rc out| |msg]; cbn [trace fs user_data];
      rewrite emitted_app; intros Hpr; try discriminate Hpr;
      exists input; rewrite lookup_insert_eq;
      (split_and!; [done|done|apply dir_absent_rmtree|by rewrite rmtree_lookup, Hin|done]).
Qed.

Lemma acknowledged_upload_is_gone_witness :
  let w := fresh_session {["/srv/old.ogg" := "OggS"]} in
  let w' := step (RT := reference_runtime) w
              (FileUploaded (audio_update "song.mp3") env_upload) in
  plain_upload (audio_update "song.mp3") = true ∧
  prompted w w' = true ∧
  ∃ path, user_data w' !! "file_path" = Some (PyStr path) ∧
          in_dir (tmpname env_upload) path = true ∧
          dir_absent (tmpname env_upload) (fs w') ∧
          fs w' !! path = None ∧
          status (user_data w') = AwaitingDuration.
Proof.
  split; [reflexivity|]. split; [vm_compute; reflexivity|].
  apply (acknowledged_upload_is_gone (H := reference_runtime)
           (fresh_session {["/srv/old.ogg" := "OggS"]}) (audio_update "song.mp3") env_upload).
  - reflexivity.
  - vm_compute. reflexivity.
Defined.

(** X2: in every session state reachable from a fresh session by updates
    whose uploads carry plain file names, the pending file path, when it is
    set, names a file that does not exist. *)
Theorem pending_file_never_exists `{Runtime} files evs :
  Forall (λ ev, plain_event ev = true) evs →
  pending_missing (run (fresh_session files) evs).
Proof.
  intros Hall. apply run_pending_missing.
  - eapply Forall_impl; [exact Hall|]. intros ev. apply plain_event_relative.
  - intros p Hp. cbn in Hp. by rewrite lookup_empty in Hp.
Qed.

Lemma pending_file_never_exists_witness :
  let evs := [FileUploaded (audio_update "song.mp3") env_upload; CancelCommand;
              TextReceived (text_update "30") env_reply] in
  Forall (λ ev, plain_event ev = true) evs ∧
  user_data (run (RT := reference_runtime) (fresh_session ∅) evs) !! "file_path"
  = Some (PyStr "/tmp/tmpa1/song.mp3") ∧
  pending_missing (run (RT := reference_runtime) (fresh_session ∅) evs).
Proof.
  assert (Forall (λ ev, plain_event ev = true)
            [FileUploaded (audio_update "song.mp3") env_upload; CancelCommand;
             TextReceived (text_update "30") env_reply]) as Hall
    by (repeat constructor).
  split; [exact Hall|]. split; [vm_compute; reflexivity|].
  exact (pending_file_never_exists (H := reference_runtime) ∅ _ Hall).
Defined.

(** X3: a duration reply in a session whose pending path names no file,
    with an ffprobe that reports no duration for a missing file: no voice
    message is sent and ffmpeg is not run; a reply that starts a conversion
    is answered with the failure message right after the probe. *)
Theorem reply_for_missing_file_fails `{Runtime} (w : World) u env :
  pending_missing w → probe_needs_file env →
  let w' := step w (TextReceived u env) in
  existsb is_voice (emitted w w') = false ∧
  existsb is_ffmpeg (emitted w w') = false ∧
  ∀ path d, user_data w !! "file_path" = Some (PyStr path) → path ≠ "" →
            py_int (msg_text u) = Some d → MIN_DURATION ≤ d ≤ MAX_DURATION →
            emitted w w' = [Reply "Processing audio..."; Ran (ffprobe_duration_argv path);
                            Reply "Failed to process audio. Please try again."].
Proof.
  intros Hpm Hprobe. cbn zeta.
  destruct (handle_text_missing w u env Hpm Hprobe) as (l & -> & Hv & Hf & Hl).
  split_and!; [done..|].
  intros path d Hpath Hne Hd Hrange. apply (Hl path d Hpath Hne Hd).
  apply orb_false_iff. unfold MIN_DURATION in Hrange. lia.
Qed.

Lemma reply_for_missing_file_fails_witness :
  let w := run (RT := reference_runtime) (fresh_session ∅)
             [FileUploaded (audio_update "song.mp3") env_upload] in
  let w' := step (RT := reference_runtime) w (TextReceived (text_update "45") env_reply) in
  pending_missing w ∧ probe_needs_file env_reply ∧
  existsb is_voice (emitted w w') = false ∧
  existsb is_ffmpeg (emitted w w') = false ∧
  emitted w w' = [Reply "Processing audio...";
                  Ran (ffprobe_duration_argv "/tmp/tmpa1/song.mp3");
                  Reply "Failed to process audio. Please try again."].
Proof.
  assert (pending_missing (run (RT := reference_runtime) (fresh_session ∅)
                             [FileUploaded (audio_update "song.mp3") env_upload])) as Hpm.
  { intros p Hp. vm_compute in Hp. injection Hp as <-. vm_compute. reflexivity. }
  assert (probe_needs_file env_reply) as Hprobe.
  { intros argv out. cbn. discriminate. }
  pose proof (reply_for_missing_file_fails (H := reference_runtime) _
                (text_update "45") env_reply Hpm Hprobe) as (Hv & Hf & Hl).
  split; [exact Hpm|]. split; [exact Hprobe|]. split; [exact Hv|]. split; [exact Hf|].
  apply (Hl "/tmp/tmpa1/song.mp3" 45).
  - vm_compute. reflexivity.
  - discriminate.
  - reflexivity.
  - split; vm_compute; discriminate.
Defined.

(** ** The probes and the conversion, whatever ffprobe and ffmpeg do *)

Lemma surjective_run {A} (m : M A) (w : World) : m w = ((m w).1, (m w).2).
Proof. by destruct (m w). Qed.

(** X4: [get_duration] runs ffprobe once on the file and changes neither
    the dict nor the files.  It returns the duration ffprobe printed when
    ffprobe exits with status zero and [float] accepts its output, and
    [None] when ffprobe exits non-zero, times out or prints something
    [float] rejects; when ffprobe cannot be started, the [OSError] is not
    caught and [get_duration] raises it. *)
Theorem get_duration_outcomes `{Runtime} env path (w : World) :
  get_duration env path w
  = (match ffprobe env (ffprobe_duration_argv path) (fs w !! path) with
     | CompletedProcess rc out => Return (if rc =? 0 then py_float (strip out) else None)
     | TimedOut => Return None
     | SpawnFailed msg => Raise (Exn OSError msg)
     end,
     mkWorld (user_data w) (fs w) (trace w ++ [Ran (ffprobe_duration_argv path)])).
Proof.
  rewrite (surjective_run (get_duration env path) w).
  by rewrite get_duration_result, get_duration_world.
Qed.

(** X5: [validate_audio_file] and [get_file_format] never raise, not even
    when ffprobe cannot be started, where [get_duration] does: a timeout
    and a failure to start give [False] and [None].  Each runs ffprobe once
    and changes neither the dict nor the files; the file is valid exactly
    when ffprobe exits with status zero and its output contains ["audio"],
    and the format is the stripped output of an ffprobe that exits with
    status zero. *)
Theorem probes_never_raise `{Runtime} env path (w : World) :
  validate_audio_file env path w
  = (Return match ffprobe env (ffprobe_validate_argv path) (fs w !! path) with
            | CompletedProcess rc out => (rc =? 0) && contains "audio" out
            | _ => false
            end,
     mkWorld (user_data w) (fs w) (trace w ++ [Ran (ffprobe_validate_argv path)])) ∧
  get_file_format env path w
  = (Return match ffprobe env (ffprobe_format_argv path) (fs w !! path) with
            | CompletedProcess rc out => if rc =? 0 then Some (strip out) else None
            | _ => None
            end,
     mkWorld (user_data w) (fs w) (trace w ++ [Ran (ffprobe_format_argv path)])).
Proof.
  unfold validate_audio_file, get_file_format, subprocess_run. hunfold. cbn. split.
  - by destruct (ffprobe env _ _) as [rc out| |msg].
  - destruct (ffprobe env _ _) as [rc out| |msg]; cbn; [|done..].
    by destruct (rc =? 0).
Qed.

(** [convert_to_voice] has no effect but running the tools. *)
Lemma convert_to_voice_only_runs `{Runtime} env input output target sr ch (w : World) :
  forallb is_ran (emitted w (convert_to_voice env input output target sr ch w).2) = true.
Proof.
  unfold emitted. munfold. cbn.
  repeat (case_match; simplify_eq; cbn);
    rewrite <- ?app_assoc, ?drop_app_length, ?drop_all; done.
Qed.

(** X6: [convert_to_voice] never raises, whatever the types of its
    arguments and whatever the tools do: it returns a [bool].  It leaves the
    dict alone, writes no file but the output file and sends nothing to the
    user: its only effects are the runs of the tools.  An input path that is
    not a [str] gives [False] before anything is run, and so does a target
    duration that is [None] or a [str]. *)
Theorem convert_to_voice_contained `{Runtime} env input output target sr ch (w : World) :
  ∃ b w2, convert_to_voice env input output target sr ch w = (Return b, w2) ∧
    user_data w2 = user_data w ∧
    (∀ p, p ≠ output → fs w2 !! p = fs w !! p) ∧
    existsb is_voice (emitted w w2) = false ∧
    existsb is_prompt (emitted w w2) = false ∧
    forallb is_ran (emitted w w2) = true ∧
    ((∀ s, input ≠ PyStr s) → b = false ∧ w2 = w) ∧
    ((target = PyNone ∨ ∃ s, target = PyStr s) → b = false).
Proof.
  destruct (convert_to_voice_result env input output target sr ch w)
    as (b & w2 & Hconv & Hud & Hfs & l & Hl & Hp & Hv).
  exists b, w2. split_and!; try done.
  - unfold emitted. by rewrite Hl, drop_app_length.
  - unfold emitted. by rewrite Hl, drop_app_length.
  - pose proof (convert_to_voice_only_runs env input output target sr ch w) as Hr.
    by rewrite Hconv in Hr.
  - intros Hns. rewrite (convert_to_voice_not_str env input output target sr ch w Hns) in Hconv.
    by injection Hconv as <- <-.
  - intros Ht. revert Hconv.
    unfold convert_to_voice, try_except, mbind, M_bind, bind, as_path, py_min, raise,
      mret, M_ret, ret.
    destruct input; try (by intros [= <- _]).
    destruct (get_duration env s w) as [[[a|]|e] w1]; try (by intros [= <- _]).
    by destruct Ht as [-> | [s' ->]]; intros [= <- _].
Qed.

(** ** What the handlers do with errors *)

(** X8: [cancel] writes nothing but the ['processing'] flag.  After it the
    status is [Idle] and the files are as before, but every other key of the
    dict, the pending file path and the target duration among them, keeps
    its value; the reply tells whether an operation was in progress. *)
Theorem cancel_only_clears_flag `{Runtime} (w : World) :
  let w' := step w CancelCommand in
  status (user_data w') = Idle ∧
  fs w' = fs w ∧
  (∀ key, key ≠ "processing" → user_data w' !! key = user_data w !! key) ∧
  emitted w w' = [Reply (if truthy (default PyNone (user_data w !! "processing"))
                         then "Operation cancelled." else "No operation in progress.")].
Proof.
  cbn zeta. hunfold. cbn.
  destruct (truthy (default PyNone (user_data w !! "processing"))) eqn:Hp; cbn;
    rewrite emitted_app; (split_and!; [|done| |done]).
  - unfold status. by rewrite lookup_insert_eq.
  - intros key Hk. by rewrite lookup_insert_ne.
  - unfold status. by rewrite Hp.
  - done.
Qed.

Lemma accepted_upload_intro (w : World) u env f n bytes :
  truthy (default PyNone (user_data w !! "processing")) = false →
  message_media u = Some (MAudio f) ∨ message_media u = Some (MDocument f) →
  file_size f = Some n → n ≤ 50 * 1024 * 1024 →
  telegram_file env = inl bytes →
  accepted_upload w u env
  = Some (name_or (file_name f) ("audio_" +:+ str_int (user_id u)), bytes).
Proof.
  intros Hp Hm Hs Hn Hg. unfold accepted_upload. rewrite Hp.
  assert ((50 * 1024 * 1024 <? n) = false) as Hlt by (apply Z.ltb_ge; lia).
  by destruct Hm as [-> | ->]; rewrite Hs, Hg, Hlt.
Qed.

(** The first effect of a stored upload. *)
Lemma accepted_upload_head `{Runtime} (w : World) u env name bytes :
  accepted_upload w u env = Some (name, bytes) →
  head (emitted w (step w (FileUploaded u env))) = Some (Reply "Downloading file...").
Proof.
  intros Hacc.
  destruct (truthy (default PyNone (user_data w !! "target_duration"))) eqn:Ht.
  - destruct (user_data w !! "target_duration") as [t|] eqn:Hlk; [|done]. cbn in Ht.
    destruct (convert_to_voice_result env (PyStr (path_join (tmpname env) name))
                (path_join (tmpname env) "output.ogg") t 48000 1
                (uploading w (path_join (tmpname env) name) bytes))
      as (b & w2 & Hconv & _ & _ & l & Hl & _).
    rewrite (handle_audio_convert w u env name bytes t b w2 Hacc Hlk Ht Hconv).
    destruct b; [destruct (fs w2 !! _)|]; cbn [trace]; rewrite Hl; cbn [trace uploading];
      by rewrite <- !app_assoc, emitted_app.
  - rewrite (handle_audio_prompt w u env name bytes Hacc Ht).
    by destruct (ffprobe env _ _); cbn [trace]; rewrite emitted_app.
Qed.

(** X9: the size check of [handle_audio].  In a session that is not busy,
    an upload larger than 50 MB (52428800 bytes) is refused before anything
    is downloaded: the only effect is the reply, and the dict ends with
    ['processing'] false.  A size of exactly 50 MB is within the limit: an
    audio or document of at most that size goes on to the download. *)
Theorem upload_size_limit `{Runtime} (w : World) u env m n :
  truthy (default PyNone (user_data w !! "processing")) = false →
  message_media u = Some m →
  media_file_size m = Some n →
  let w' := step w (FileUploaded u env) in
  (52428800 < n →
     emitted w w' = [Reply "File is too large. Maximum size is 50MB."] ∧
     user_data w' = <["processing" := PyBool false]> (user_data w) ∧
     fs w' = fs w) ∧
  (n ≤ 52428800 → (∀ v, m ≠ MVoice v) →
     head (emitted w w') = Some (Reply "Downloading file...")).
Proof.
  intros Hp Hm Hs. cbn zeta. split.
  - intros Hn. apply Z.ltb_lt in Hn.
    hunfold. cbn. rewrite Hp. cbn. rewrite Hm. cbn. rewrite Hs. cbn.
    change (50 * 1024 * 1024) with 52428800. rewrite Hn. cbn.
    by rewrite emitted_app, insert_insert_eq.
  - intros Hn Hnv.
    assert (∃ f, (message_media u = Some (MAudio f) ∨ message_media u = Some (MDocument f))
                 ∧ file_size f = Some n) as (f & Hmf & Hsf).
    { destruct m as [f|f|v]; [exists f; auto..|by destruct (Hnv v)]. }
    destruct (telegram_file env) as [bytes|msg] eqn:Hg.
    + eapply accepted_upload_head. by eapply accepted_upload_intro.
    + assert ((50 * 1024 * 1024 <? n) = false) as Hlt by (apply Z.ltb_ge; lia).
      hunfold. cbn. rewrite Hp. cbn.
      by destruct Hmf as [-> | ->]; cbn; rewrite Hsf; cbn; rewrite Hlt; cbn;
        rewrite Hg; cbn; rewrite <- app_assoc, emitted_app.
Qed.

Lemma upload_size_limit_witness :
  let w := fresh_session ∅ in
  let big := step (RT := reference_runtime) w
               (FileUploaded (sized_update (Some 52428801)) env_upload) in
  let ok := step (RT := reference_runtime) w
              (FileUploaded (sized_update (Some 52428800)) env_upload) in
  truthy (default PyNone (user_data w !! "processing")) = false ∧
  emitted w big = [Reply "File is too large. Maximum size is 50MB."] ∧
  head (emitted w ok) = Some (Reply "Downloading file...").
Proof.
  split; [reflexivity|].
  pose proof (upload_size_limit (H := reference_runtime) (fresh_session ∅)
                (sized_update (Some 52428801)) env_upload
                (MAudio (mkFile "AgAD" (Some 52428801) (Some "song.mp3"))) 52428801
                eq_refl eq_refl eq_refl) as [Hbig _].
  pose proof (upload_size_limit (H := reference_runtime) (fresh_session ∅)
                (sized_update (Some 52428800)) env_upload
                (MAudio (mkFile "AgAD" (Some 52428800) (Some "song.mp3"))) 52428800
                eq_refl eq_refl eq_refl) as [_ Hok].
  split.
  - apply Hbig. reflexivity.
  - apply Hok; [discriminate|]. intros v. discriminate.
Defined.

(** X10: a voice message is never stored.  [telegram.Voice] has no
    [file_name], so a voice upload of a size within the limit ends in the
    [AttributeError] raised by [audio.file_name], which the handler reports:
    nothing is downloaded or run, no prompt and no voice reply is sent, and
    the session ends [Idle] with its other keys as before. *)
Theorem voice_upload_fails `{Runtime} (w : World) u env v n :
  truthy (default PyNone (user_data w !! "processing")) = false →
  message_media u = Some (MVoice v) →
  voice_file_size v = Some n → n ≤ 52428800 →
  step w (FileUploaded u env)
  = mkWorld (<["processing" := PyBool false]> (user_data w)) (fs w)
      (trace w ++ [Reply ("An error occurred: 'Voice' object has no attribute 'file_name'"
                          +:+ nl +:+ nl +:+ "Please try again.")]).
Proof.
  intros Hp Hm Hs Hn.
  assert ((50 * 1024 * 1024 <? n) = false) as Hlt by (apply Z.ltb_ge; lia).
  hunfold. cbn. rewrite Hp. cbn. rewrite Hm. cbn. rewrite Hs. cbn. rewrite Hlt. cbn.
  by rewrite insert_insert_eq.
Qed.

Lemma voice_upload_fails_witness :
  let w := fresh_session ∅ in
  let w' := step (RT := reference_runtime) w (FileUploaded voice_update env_upload) in
  message_media voice_update = Some (MVoice (mkVoice "AwAC" (Some 2000))) ∧
  emitted w w' = [Reply ("An error occurred: 'Voice' object has no attribute 'file_name'"
                         +:+ nl +:+ nl +:+ "Please try again.")] ∧
  status (user_data w') = Idle ∧ fs w' = ∅.
Proof.
  split; [reflexivity|].
  rewrite (voice_upload_fails (H := reference_runtime) (fresh_session ∅) voice_update
             env_upload (mkVoice "AwAC" (Some 2000)) 2000 eq_refl eq_refl eq_refl);
    [|discriminate].
  split; [|split]; reflexivity.
Defined.

(** X11: an upload whose size Telegram does not report.  The comparison of
    [None] with the limit raises [TypeError]; the handler reports it and
    clears the flag, and nothing is downloaded. *)
Theorem upload_of_unknown_size_fails `{Runtime} (w : World) u env m :
  truthy (default PyNone (user_data w !! "processing")) = false →
  message_media u = Some m →
  media_file_size m = None →
  step w (FileUploaded u env)
  = mkWorld (<["processing" := PyBool false]> (user_data w)) (fs w)
      (trace w ++ [Reply ("An error occurred: "
                          +:+ "'>' not supported between instances of 'NoneType' and 'int'"
                          +:+ nl +:+ nl +:+ "Please try again.")]).
Proof.
  intros Hp Hm Hs.
  hunfold. cbn. rewrite Hp. cbn. rewrite Hm. cbn. rewrite Hs. cbn.
  by rewrite insert_insert_eq.
Qed.

Lemma upload_of_unknown_size_fails_witness :
  let w := fresh_session ∅ in
  let w' := step (RT := reference_runtime) w (FileUploaded (sized_update None) env_upload) in
  media_file_size (MAudio (mkFile "AgAD" None (Some "song.mp3"))) = None ∧
  emitted w w' = [Reply ("An error occurred: "
                         +:+ "'>' not supported between instances of 'NoneType' and 'int'"
                         +:+ nl +:+ nl +:+ "Please try again.")] ∧
  user_data w' !! "processing" = Some (PyBool false).
Proof.
  split; [reflexivity|].
  rewrite (upload_of_unknown_size_fails (H := reference_runtime) (fresh_session ∅)
             (sized_update None) env_upload
             (MAudio (mkFile "AgAD" None (Some "song.mp3"))) eq_refl eq_refl eq_refl).
  split; reflexivity.
Defined.

(** X12: a download that fails.  When [get_file] or [download_to_drive]
    raises, the user has been told "Downloading file...", the error is
    reported with its message, the flag is cleared, and neither the files
    nor the other keys of the dict change. *)
Theorem failed_download_is_reported `{Runtime} (w : World) u env f n msg :
  truthy (default PyNone (user_data w !! "processing")) = false →
  message_media u = Some (MAudio f) ∨ message_media u = Some (MDocument f) →
  file_size f = Some n → n ≤ 52428800 →
  telegram_file env = inr msg →
  step w (FileUploaded u env)
  = mkWorld (<["processing" := PyBool false]> (user_data w)) (fs w)
      (trace w ++ [Reply "Downloading file...";
                   Reply ("An error occurred: " +:+ msg +:+ nl +:+ nl
                          +:+ "Please try again.")]).
Proof.
  intros Hp Hm Hs Hn Hg.
  assert ((50 * 1024 * 1024 <? n) = false) as Hlt by (apply Z.ltb_ge; lia).
  hunfold. cbn. rewrite Hp. cbn.
  by destruct Hm as [-> | ->]; cbn; rewrite Hs; cbn; rewrite Hlt; cbn; rewrite Hg; cbn;
    rewrite insert_insert_eq, <- app_assoc.
Qed.

Lemma failed_download_is_reported_witness :
  let w := fresh_session {["/srv/old.ogg" := "OggS"]} in
  let w' := step (RT := reference_runtime) w
              (FileUploaded (audio_update "song.mp3") env_offline) in
  telegram_file env_offline = inr "Timed out" ∧
  emitted w w' = [Reply "Downloading file...";
                  Reply ("An error occurred: Timed out" +:+ nl +:+ nl
                         +:+ "Please try again.")] ∧
  fs w' = fs w ∧ status (user_data w') = Idle.
Proof.
  split; [reflexivity|].
  rewrite (failed_download_is_reported (H := reference_runtime)
             (fresh_session {["/srv/old.ogg" := "OggS"]}) (audio_update "song.mp3")
             env_offline (mkFile "AgAD" (Some 1000) (Some "song.mp3")) 1000 "Timed out"
             eq_refl (or_introl eq_refl) eq_refl);
    [|discriminate|reflexivity].
  split; [|split]; reflexivity.
Defined.

(** ** Conversions started by the handlers *)

Lemma conversion_failure_ext `{Runtime} env (w1 w2 : World) path output d sr ch :
  fs w1 = fs w2 →
  conversion_failure env w1 path output d sr ch
  = conversion_failure env w2 path output d sr ch.
Proof.
  intros Hfs. unfold conversion_failure, transcode, output_after.
  rewrite (obtained_ext env w1 w2 path) by (by rewrite Hfs). by rewrite Hfs.
Qed.

(** A conversion that succeeds leaves a non-empty output file. *)
Lemma successful_conversion_run `{Runtime} env (w : World) path output d sr ch :
  conversion_failure env w path output d sr ch = false →
  ∃ a voice w2,
    obtained env w path = Some a ∧
    convert_to_voice env (PyStr path) output (PyInt d) sr ch w = (Return true, w2) ∧
    user_data w2 = user_data w ∧
    fs w2 !! output = Some voice ∧
    trace w2 = (trace w ++ [Ran (ffprobe_duration_argv path);
                            Ran (ffmpeg_argv path output (trim_end d a) sr ch)])%list.
Proof.
  intros Hok. rewrite convert_to_voice_run, Hok.
  unfold conversion_failure in Hok.
  destruct (obtained env w path) as [a|]; [|done]. cbn zeta in Hok |- *.
  destruct (transcode env w path output d a sr ch) as [p written]. cbn [fst snd] in *.
  destruct p as [rc out| |msg]; [|done..].
  apply orb_false_iff in Hok as [_ Hne%negb_false_iff].
  destruct written as [bytes|]; cbn in Hne.
  - exists a, bytes. eexists. split_and!; try reflexivity. cbn. by rewrite lookup_insert_eq.
  - destruct (fs w !! output) as [bytes|] eqn:Hout; [|done].
    exists a, bytes. eexists. split_and!; try reflexivity. done.
Qed.

Lemma failed_conversion_run `{Runtime} env (w : World) path output d sr ch :
  conversion_failure env w path output d sr ch = true →
  ∃ w2 (l : list effect),
    convert_to_voice env (PyStr path) output (PyInt d) sr ch w = (Return false, w2) ∧
    user_data w2 = user_data w ∧
    trace w2 = (trace w ++ l)%list ∧ existsb is_voice l = false.
Proof.
  intros Hbad. rewrite convert_to_voice_run, Hbad.
  destruct (obtained env w path) as [a|]; cbn zeta; by do 2 eexists.
Qed.

(** X13: a duration reply whose conversion succeeds.  The probe and the
    transcoder are run, the voice message is sent with the requested
    duration, and the session is reset: the status is [Idle], the pending
    path and the target duration hold [None], and the temporary directory
    is gone. *)
Theorem successful_reply_resets_session `{Runtime} (w : World) u env path d :
  user_data w !! "file_path" = Some (PyStr path) → path ≠ "" →
  py_int (msg_text u) = Some d → MIN_DURATION ≤ d ≤ MAX_DURATION →
  let output := path_join (tmpname env) "output.ogg" in
  conversion_failure env w path output d 48000 1 = false →
  let w' := step w (TextReceived u env) in
  (∃ a voice,
     obtained env w path = Some a ∧
     emitted w w' = [Reply "Processing audio..."; Ran (ffprobe_duration_argv path);
                     Ran (ffmpeg_argv path output (trim_end d a) 48000 1);
                     ReplyVoice voice (PyInt d) ("Duration: " +:+ str_int d +:+ "s")]) ∧
  status (user_data w') = Idle ∧
  user_data w' !! "file_path" = Some PyNone ∧
  user_data w' !! "target_duration" = Some PyNone ∧
  dir_absent (tmpname env) (fs w').
Proof.
  intros Hpath Hne Hd Hrange. cbn zeta. intros Hok.
  assert (truthy (default PyNone (user_data w !! "file_path")) = true) as Hp.
  { rewrite Hpath. cbn. apply negb_true_iff. by apply String.eqb_neq. }
  assert ((d <? 1) || (MAX_DURATION <? d) = false) as Hr.
  { apply orb_false_iff. unfold MIN_DURATION in Hrange. lia. }
  rewrite <- (conversion_failure_ext env (converting w d) w) in Hok by done.
  destruct (successful_conversion_run _ _ _ _ _ _ _ Hok) as (a & voice & w2 & Ha & Hconv & Hud & Hv & Htr).
  rewrite (obtained_ext env (converting w d) w path) in Ha by done.
  rewrite (handle_text_valid w u env d true w2 Hp Hd Hr) by (by rewrite Hpath).
  rewrite Hv, Htr. cbn [trace fs user_data converting].
  rewrite <- !app_assoc, emitted_app. split_and!.
  - by exists a, voice.
  - unfold status. by rewrite lookup_insert_ne, lookup_insert_ne, lookup_insert_eq.
  - by rewrite lookup_insert_eq.
  - by rewrite lookup_insert_ne, lookup_insert_eq.
  - apply dir_absent_rmtree.
Qed.

Lemma successful_reply_resets_session_witness :
  let w := awaiting "/srv/song.mp3" {["/srv/song.mp3" := "ID3."]} in
  let w' := step (RT := reference_runtime) w (TextReceived (text_update "60") env_short) in
  conversion_failure (RT := reference_runtime) env_short w "/srv/song.mp3"
    (path_join (tmpname env_short) "output.ogg") 60 48000 1 = false ∧
  status (user_data w) = AwaitingDuration ∧
  status (user_data w') = Idle ∧
  user_data w' !! "file_path" = Some PyNone ∧
  user_data w' !! "target_duration" = Some PyNone ∧
  dir_absent (tmpname env_short) (fs w').
Proof.
  split; [vm_compute; reflexivity|]. split; [reflexivity|].
  apply (successful_reply_resets_session (H := reference_runtime)
           (awaiting "/srv/song.mp3" {["/srv/song.mp3" := "ID3."]})
           (text_update "60") env_short "/srv/song.mp3" 60).
  - reflexivity.
  - discriminate.
  - reflexivity.
  - split; vm_compute; discriminate.
  - vm_compute. reflexivity.
Defined.

(** X14: a duration reply whose conversion fails.  The handler reports the
    failure and returns: the only change to the dict is the target duration
    it stored before converting, so ['processing'] and the pending path are
    as they were, and a session that awaited a duration is left in
    [Processing]. *)
Theorem failed_reply_keeps_session `{Runtime} (w : World) u env path d :
  user_data w !! "file_path" = Some (PyStr path) → path ≠ "" →
  py_int (msg_text u) = Some d → MIN_DURATION ≤ d ≤ MAX_DURATION →
  conversion_failure env w path (path_join (tmpname env) "output.ogg") d 48000 1 = true →
  let w' := step w (TextReceived u env) in
  last (emitted w w') = Some (Reply "Failed to process audio. Please try again.") ∧
  existsb is_voice (emitted w w') = false ∧
  user_data w' = <["target_duration" := PyInt d]> (user_data w) ∧
  (status (user_data w) = AwaitingDuration → status (user_data w') = Processing).
Proof.
  intros Hpath Hne Hd Hrange Hbad. cbn zeta.
  assert (truthy (default PyNone (user_data w !! "file_path")) = true) as Hp.
  { rewrite Hpath. cbn. apply negb_true_iff. by apply String.eqb_neq. }
  assert ((d <? 1) || (MAX_DURATION <? d) = false) as Hr.
  { apply orb_false_iff. unfold MIN_DURATION in Hrange. lia. }
  rewrite <- (conversion_failure_ext env (converting w d) w) in Hbad by done.
  destruct (failed_conversion_run _ _ _ _ _ _ _ Hbad) as (w2 & l & Hconv & Hud & Htr & Hl).
  rewrite (handle_text_valid w u env d false w2 Hp Hd Hr) by (by rewrite Hpath).
  rewrite Htr, Hud. cbn [trace fs user_data converting].
  rewrite <- !app_assoc, emitted_app. split_and!.
  - rewrite app_assoc. apply last_snoc.
  - cbn. rewrite existsb_app, Hl. done.
  - done.
  - intros Hs. pose proof (status_Awaiting_pending _ Hs) as Hpend.
    unfold status in Hs |- *.
    rewrite !lookup_insert_ne by done. rewrite lookup_insert_eq.
    destruct (truthy (default PyNone (user_data w !! "processing"))); [|done].
    rewrite Hpend. cbn.
    assert (d ≠ 0) as Hd0 by (unfold MIN_DURATION in Hrange; lia).
    apply Z.eqb_neq in Hd0. by rewrite Hd0.
Qed.

Lemma failed_reply_keeps_session_witness :
  let w := awaiting "/srv/song.mp3" {["/srv/song.mp3" := "ID3."]} in
  let w' := step (RT := reference_runtime) w (TextReceived (text_update "30") env_no_ffmpeg) in
  conversion_failure (RT := reference_runtime) env_no_ffmpeg w "/srv/song.mp3"
    (path_join (tmpname env_no_ffmpeg) "output.ogg") 30 48000 1 = true ∧
  last (emitted w w') = Some (Reply "Failed to process audio. Please try again.") ∧
  user_data w' = <["target_duration" := PyInt 30]> (user_data w) ∧
  status (user_data w') = Processing.
Proof.
  split; [vm_compute; reflexivity|].
  pose proof (failed_reply_keeps_session (H := reference_runtime)
                (awaiting "/srv/song.mp3" {["/srv/song.mp3" := "ID3."]})
                (text_update "30") env_no_ffmpeg "/srv/song.mp3" 30) as Hthm.
  destruct Hthm as (Hlast & _ & Hud & Hst).
  - reflexivity.
  - discriminate.
  - reflexivity.
  - split; vm_compute; discriminate.
  - vm_compute. reflexivity.
  - split; [exact Hlast|]. split; [exact Hud|]. apply Hst. reflexivity.
Defined.

(** ** Stored uploads *)

(** X15: an upload that arrives while a target duration is already in the
    dict is converted at once, without a prompt.  When the conversion
    succeeds the voice message is sent with that duration and the session
    is reset ([Idle], pending path and target duration [None]); when it
    fails the failure is reported and only the flag is cleared, so the
    target duration stays.  Either way nothing is left in the temporary
    directory. *)
Theorem upload_with_known_duration `{Runtime} (w : World) u env f n bytes d :
  truthy (default PyNone (user_data w !! "processing")) = false →
  message_media u = Some (MAudio f) ∨ message_media u = Some (MDocument f) →
  plain_name (file_name f) = true →
  file_size f = Some n → n ≤ 52428800 →
  telegram_file env = inl bytes →
  user_data w !! "target_duration" = Some (PyInt d) → d ≠ 0 →
  let input := path_join (tmpname env)
                 (name_or (file_name f) ("audio_" +:+ str_int (user_id u))) in
  let output := path_join (tmpname env) "output.ogg" in
  let w' := step w (FileUploaded u env) in
  prompted w w' = false ∧
  dir_absent (tmpname env) (fs w') ∧
  (conversion_failure env (uploading w input bytes) input output d 48000 1 = false →
     (∃ voice, In (ReplyVoice voice (PyInt d) ("Duration: " +:+ str_int d +:+ "s"))
                  (emitted w w')) ∧
     status (user_data w') = Idle ∧
     user_data w' !! "file_path" = Some PyNone ∧
     user_data w' !! "target_duration" = Some PyNone) ∧
  (conversion_failure env (uploading w input bytes) input output d 48000 1 = true →
     last (emitted w w') = Some (EditText "Failed to process audio. Please try again.") ∧
     existsb is_voice (emitted w w') = false ∧
     user_data w' = <["processing" := PyBool false]> (user_data w)).
Proof.
  intros Hp Hm _ Hs Hn Hg Ht Hd0. cbn zeta.
  pose proof (accepted_upload_intro w u env f n bytes Hp Hm Hs Hn Hg) as Hacc.
  set (name := name_or _ _) in *. set (input := path_join (tmpname env) name).
  set (output := path_join (tmpname env) "output.ogg").
  assert (truthy (PyInt d) = true) as Htr by (cbn; by apply negb_true_iff, Z.eqb_neq).
  destruct (conversion_failure env (uploading w input bytes) input output d 48000 1) eqn:Hc.
  - destruct (failed_conversion_run _ _ _ _ _ _ _ Hc) as (w2 & l & Hconv & Hud & Hl & Hv).
    rewrite (handle_audio_convert w u env name bytes (PyInt d) false w2 Hacc Ht Htr Hconv).
    unfold prompted. rewrite Hl, Hud. cbn [trace fs user_data uploading].
    rewrite <- !app_assoc, emitted_app.
    destruct (convert_to_voice_result env (PyStr input) output (PyInt d) 48000 1
                (uploading w input bytes)) as (b' & w2' & Hconv' & _ & _ & l' & Hl' & Hnp & _).
    rewrite Hconv in Hconv'. injection Hconv' as <- <-.
    rewrite Hl in Hl'. apply app_inv_head in Hl' as <-.
    split_and!; [|apply dir_absent_rmtree|done|intros _; split_and!].
    + cbn. by rewrite existsb_app, Hnp.
    + rewrite app_assoc. apply last_snoc.
    + cbn. by rewrite existsb_app, Hv.
    + by rewrite insert_insert_eq.
  - destruct (successful_conversion_run _ _ _ _ _ _ _ Hc) as (a & voice & w2 & _ & Hconv & Hud & Hv & Hl).
    rewrite (handle_audio_convert w u env name bytes (PyInt d) true w2 Hacc Ht Htr Hconv).
    fold output. rewrite Hv. unfold prompted. rewrite Hl. cbn [trace fs user_data uploading].
    rewrite <- !app_assoc, emitted_app.
    split_and!; [done|apply dir_absent_rmtree|intros _; split_and!|done].
    + exists voice. cbn. do 5 right. by left.
    + unfold status. by rewrite lookup_insert_ne, lookup_insert_ne, lookup_insert_eq.
    + by rewrite lookup_insert_eq.
    + by rewrite lookup_insert_ne, lookup_insert_eq.
Qed.

Lemma upload_with_known_duration_witness :
  let w := run (RT := reference_runtime) (fresh_session ∅)
             [FileUploaded (audio_update "song.mp3") env_upload;
              TextReceived (text_update "30") env_reply; CancelCommand] in
  let w' := step (RT := reference_runtime) w
              (FileUploaded (audio_update "next.mp3") env_short) in
  user_data w !! "target_duration" = Some (PyInt 30) ∧
  (∃ voice, In (ReplyVoice voice (PyInt 30) "Duration: 30s") (emitted w w')) ∧
  status (user_data w') = Idle ∧
  user_data w' !! "file_path" = Some PyNone ∧
  user_data w' !! "target_duration" = Some PyNone.
Proof.
  split; [vm_compute; reflexivity|].
  pose proof (upload_with_known_duration (H := reference_runtime)
                (run (RT := reference_runtime) (fresh_session ∅)
                   [FileUploaded (audio_update "song.mp3") env_upload;
                    TextReceived (text_update "30") env_reply; CancelCommand])
                (audio_update "next.mp3") env_short
                (mkFile "AgAD" (Some 1000) (Some "next.mp3")) 1000 "" 30) as Hthm.
  destruct Hthm as (_ & _ & Hok & _).
  - vm_compute. reflexivity.
  - left. reflexivity.
  - reflexivity.
  - reflexivity.
  - discriminate.
  - reflexivity.
  - vm_compute. reflexivity.
  - discriminate.
  - apply Hok. vm_compute. reflexivity.
Defined.

(** X16: the prompt after an inspection that fails.  When a stored upload
    is probed and ffprobe times out, exits non-zero or prints something
    [float] rejects, [get_duration] returns [None] and the handler formats
    it into the prompt: the user is asked for a duration of a file whose
    duration reads ["Nones"], no error is reported, and the session awaits
    a duration. *)
Theorem failed_probe_is_prompted `{Runtime} (w : World) u env f n bytes :
  truthy (default PyNone (user_data w !! "processing")) = false →
  message_media u = Some (MAudio f) ∨ message_media u = Some (MDocument f) →
  plain_name (file_name f) = true →
  file_size f = Some n → n ≤ 52428800 →
  telegram_file env = inl bytes →
  truthy (default PyNone (user_data w !! "target_duration")) = false →
  let input := path_join (tmpname env)
                 (name_or (file_name f) ("audio_" +:+ str_int (user_id u))) in
  (ffprobe env (ffprobe_duration_argv input) (Some bytes) = TimedOut
   ∨ ∃ rc out, ffprobe env (ffprobe_duration_argv input) (Some bytes) = CompletedProcess rc out
               ∧ (rc ≠ 0 ∨ py_float (strip out) = None)) →
  let w' := step w (FileUploaded u env) in
  emitted w w' = [Reply "Downloading file..."; Ran (ffprobe_duration_argv input);
                  EditText ("File received! Current duration: Nones" +:+ nl +:+ nl
                            +:+ "Reply with desired duration (1-"
                            +:+ str_int MAX_DURATION +:+ " seconds):")] ∧
  status (user_data w') = AwaitingDuration ∧
  user_data w' !! "file_path" = Some (PyStr input).
Proof.
  intros Hp Hm _ Hs Hn Hg Ht. cbn zeta. intros Hprobe.
  pose proof (accepted_upload_intro w u env f n bytes Hp Hm Hs Hn Hg) as Hacc.
  set (name := name_or _ _) in *. set (input := path_join (tmpname env) name) in *.
  rewrite (handle_audio_prompt w u env name bytes Hacc Ht). fold input.
  assert (obtained env (downloaded w input bytes) input = None) as Hobt.
  { unfold obtained. rewrite get_duration_result. cbn [fs downloaded].
    rewrite lookup_insert_eq.
    destruct Hprobe as [-> | (rc & out & -> & [Hrc | Hout])]; [done| |].
    - apply Z.eqb_neq in Hrc. by rewrite Hrc.
    - destruct (rc =? 0); [by rewrite Hout|done]. }
  rewrite Hobt.
  assert (status (<["file_path" := PyStr input]>
                    (<["processing" := PyBool true]> (user_data w))) = AwaitingDuration)
    as Hst.
  { unfold status. rewrite lookup_insert_ne, !lookup_insert_eq by done.
    rewrite !lookup_insert_ne by done. cbn [default id]. rewrite Ht.
    unfold input. by rewrite path_join_nonempty. }
  destruct Hprobe as [-> | (rc & out & -> & _)]; cbn [trace fs user_data];
    rewrite emitted_app, lookup_insert_eq; done.
Qed.

Lemma failed_probe_is_prompted_witness :
  let w := fresh_session ∅ in
  let w' := step (RT := reference_runtime) w
              (FileUploaded (audio_update "notes.txt") env_unprobeable) in
  ffprobe env_unprobeable (ffprobe_duration_argv "/tmp/tmpc3/notes.txt") (Some "notes")
  = CompletedProcess 1 "" ∧
  emitted w w' = [Reply "Downloading file...";
                  Ran (ffprobe_duration_argv "/tmp/tmpc3/notes.txt");
                  EditText ("File received! Current duration: Nones" +:+ nl +:+ nl
                            +:+ "Reply with desired duration (1-60 seconds):")] ∧
  status (user_data w') = AwaitingDuration.
Proof.
  split; [reflexivity|].
  pose proof (failed_probe_is_prompted (H := reference_runtime) (fresh_session ∅)
                (audio_update "notes.txt") env_unprobeable
                (mkFile "AgAD" (Some 1000) (Some "notes.txt")) 1000 "notes") as Hthm.
  destruct Hthm as (Hem & Hst & _).
  - reflexivity.
  - left. reflexivity.
  - reflexivity.
  - reflexivity.
  - discriminate.
  - reflexivity.
  - reflexivity.
  - right. exists 1, "". split; [reflexivity|]. left. discriminate.
  - split; [exact Hem|exact Hst].
Defined.

(** X17: an ffprobe that cannot be started while a stored upload is
    probed.  [get_duration] raises, the handler reports the error and
    clears the flag, but the path was recorded before the probe: the session
    is [Idle] with a pending path, and the file that path names went with
    the temporary directory. *)
Theorem unstartable_probe_at_upload `{Runtime} (w : World) u env f n bytes msg :
  truthy (default PyNone (user_data w !! "processing")) = false →
  message_media u = Some (MAudio f) ∨ message_media u = Some (MDocument f) →
  plain_name (file_name f) = true →
  file_size f = Some n → n ≤ 52428800 →
  telegram_file env = inl bytes →
  truthy (default PyNone (user_data w !! "target_duration")) = false →
  let input := path_join (tmpname env)
                 (name_or (file_name f) ("audio_" +:+ str_int (user_id u))) in
  ffprobe env (ffprobe_duration_argv input) (Some bytes) = SpawnFailed msg →
  let w' := step w (FileUploaded u env) in
  emitted w w' = [Reply "Downloading file..."; Ran (ffprobe_duration_argv input);
                  Reply ("An error occurred: " +:+ msg +:+ nl +:+ nl
                         +:+ "Please try again.")] ∧
  status (user_data w') = Idle ∧
  user_data w' !! "file_path" = Some (PyStr input) ∧
  fs w' !! input = None.
Proof.
  intros Hp Hm Hplain Hs Hn Hg Ht. cbn zeta. intros Hprobe.
  pose proof (accepted_upload_intro w u env f n bytes Hp Hm Hs Hn Hg) as Hacc.
  assert (relative_upload u = true) as Hrel.
  { unfold relative_upload. destruct Hm as [-> | ->]; by apply plain_name_relative. }
  pose proof (accepted_upload_in_dir w u env _ bytes Hacc Hrel) as Hin.
  set (name := name_or _ _) in *. set (input := path_join (tmpname env) name) in *.
  rewrite (handle_audio_prompt w u env name bytes Hacc Ht). fold input. rewrite Hprobe.
  cbn [trace fs user_data]. rewrite emitted_app. split_and!.
  - done.
  - unfold status. by rewrite lookup_insert_eq.
  - by rewrite lookup_insert_ne, lookup_insert_eq.
  - by rewrite rmtree_lookup, Hin.
Qed.

Lemma unstartable_probe_at_upload_witness :
  let w := fresh_session ∅ in
  let w' := step (RT := reference_runtime) w
              (FileUploaded (audio_update "song.mp3") env_no_ffprobe) in
  status (user_data w') = Idle ∧
  user_data w' !! "file_path" = Some (PyStr "/tmp/tmpf6/song.mp3") ∧
  fs w' !! "/tmp/tmpf6/song.mp3" = None.
Proof.
  pose proof (unstartable_probe_at_upload (H := reference_runtime) (fresh_session ∅)
                (audio_update "song.mp3") env_no_ffprobe
                (mkFile "AgAD" (Some 1000) (Some "song.mp3")) 1000 "ID3."
                "[Errno 2] No such file or directory: 'ffprobe'") as Hthm.
  destruct Hthm as (_ & Hst & Hfp & Hfs).
  - reflexivity.
  - left. reflexivity.
  - reflexivity.
  - reflexivity.
  - discriminate.
  - reflexivity.
  - reflexivity.
  - reflexivity.
  - split; [exact Hst|]. split; [exact Hfp|exact Hfs].
Defined.



(** ** The settings *)

(** X19: importing [config/settings.py] raises exactly when the value of
    [MAX_DURATION] or of [PROCESS_TIMEOUT] (or its default) is rejected by
    [int], or [TELEGRAM_BOT_TOKEN] is unset or is the placeholder; every
    such error is a [ValueError].  When it succeeds, the token is the
    variable's value and [MAX_DURATION] and [PROCESS_TIMEOUT] are the
    integers read, whatever they are. *)
Theorem settings_load_outcomes (int : string → option Z) logs (environ : gmap string string) :
  ((∃ e, settings.load int logs environ = Raise e) ↔
   int (settings.getenv environ "MAX_DURATION" "60") = None
   ∨ int (settings.getenv environ "PROCESS_TIMEOUT" "300") = None
   ∨ environ !! "TELEGRAM_BOT_TOKEN" = None
   ∨ environ !! "TELEGRAM_BOT_TOKEN" = Some settings.PLACEHOLDER) ∧
  (∀ e, settings.load int logs environ = Raise e → kind e = ValueError) ∧
  (∀ s, settings.load int logs environ = Return s →
        environ !! "TELEGRAM_BOT_TOKEN" = Some (settings.TELEGRAM_TOKEN s) ∧
        int (settings.getenv environ "MAX_DURATION" "60") = Some (settings.MAX_DURATION s) ∧
        int (settings.getenv environ "PROCESS_TIMEOUT" "300")
        = Some (settings.PROCESS_TIMEOUT s) ∧
        settings.DATABASE_URL s = environ !! "DATABASE_URL").
Proof.
  unfold settings.load. cbv zeta.
  destruct (int (settings.getenv environ "MAX_DURATION" "60")) as [m|].
  2: { split_and!; [split; [auto|by eexists]|by intros e [= <-]|done]. }
  destruct (int (settings.getenv environ "PROCESS_TIMEOUT" "300")) as [p|].
  2: { split_and!; [split; [auto|by eexists]|by intros e [= <-]|done]. }
  unfold settings.getenv.
  destruct (environ !! "TELEGRAM_BOT_TOKEN") as [token|] eqn:Htok; cbn [default id].
  2: { split_and!; [split; [auto|by eexists]|by intros e [= <-]|done]. }
  destruct (String.eqb token settings.PLACEHOLDER) eqn:Heq.
  - apply String.eqb_eq in Heq as ->.
    split_and!; [split; [auto|by eexists]|by intros e [= <-]|done].
  - apply String.eqb_neq in Heq. split_and!.
    + split; [by intros [e ?]|]. intros [?|[?|[?|[= ->]]]]; done.
    + done.
    + by intros s [= <-].
Qed.

(** X20: the settings accept any integer as [MAX_DURATION].  With a value
    below [MIN_DURATION] the import succeeds, and the bot then refuses every
    duration reply: whatever the session and the text, the reply is one
    message, the dict and the files are unchanged and nothing is run. *)
Theorem nonpositive_max_duration_refuses_replies `{RT : Runtime} logs
    (environ : gmap string string) token m p :
  environ !! "TELEGRAM_BOT_TOKEN" = Some token → token ≠ settings.PLACEHOLDER →
  py_int (settings.getenv environ "MAX_DURATION" "60") = Some m →
  py_int (settings.getenv environ "PROCESS_TIMEOUT" "300") = Some p →
  m < MIN_DURATION →
  ∃ s, settings.load py_int logs environ = Return s ∧
       settings.MAX_DURATION s = m ∧
       ∀ (w : World) u env,
         ∃ msg, step (RT := with_settings s RT) w (TextReceived u env)
                = mkWorld (user_data w) (fs w) (trace w ++ [Reply msg]).
Proof.
  intros Htok Hne Hm Hp Hlow.
  unfold settings.load. cbv zeta. rewrite Hm, Hp. unfold settings.getenv.
  rewrite Htok. cbn [default id]. apply String.eqb_neq in Hne. rewrite Hne.
  eexists. split; [reflexivity|]. split; [reflexivity|].
  intros w u env. apply handle_text_invalid.
  destruct (truthy (default PyNone (user_data w !! "file_path"))); [|by left].
  right. cbn [py_int with_settings].
  destruct (py_int (msg_text u)) as [d|]; [|by left].
  right. exists d. split; [done|].
  cbn [MAX_DURATION with_settings settings.MAX_DURATION].
  apply orb_true_iff. unfold MIN_DURATION in Hlow. lia.
Qed.

Lemma nonpositive_max_duration_refuses_replies_witness :
  let environ : gmap string string :=
    {["TELEGRAM_BOT_TOKEN" := "42:token"; "MAX_DURATION" := "0"]} in
  ∃ s, settings.load int_of_string "/srv/bot/logs" environ = Return s ∧
       settings.MAX_DURATION s = 0 ∧
       ∀ (w : World) u env,
         ∃ msg, step (RT := with_settings s reference_runtime) w (TextReceived u env)
                = mkWorld (user_data w) (fs w) (trace w ++ [Reply msg]).
Proof.
  apply (nonpositive_max_duration_refuses_replies (RT := reference_runtime)
           "/srv/bot/logs" {["TELEGRAM_BOT_TOKEN" := "42:token"; "MAX_DURATION" := "0"]}
           "42:token" 0 300).
  - vm_compute. reflexivity.
  - discriminate.
  - vm_compute. reflexivity.
  - vm_compute. reflexivity.
  - reflexivity.
Defined.

(** ** The trace is write-only *)

Lemma param_ret {A} (a : A) : trace_parametric (ret a).
Proof. intros ud files t. unfold ret. cbn. by rewrite app_nil_r. Qed.

Lemma param_raise {A} k msg : trace_parametric (@raise A k msg).
Proof. intros ud files t. unfold raise. cbn. by rewrite app_nil_r. Qed.

Lemma param_bind {A B} (m : M A) (k : A → M B) :
  trace_parametric m → (∀ a, trace_parametric (k a)) → trace_parametric (bind m k).
Proof.
  intros Hm Hk ud files t. unfold bind. rewrite (Hm ud files t).
  destruct (m (mkWorld ud files [])) as [[a|e] [ud1 files1 t1]]; cbn; [|done].
  rewrite (Hk a ud1 files1 (t ++ t1)%list), (Hk a ud1 files1 t1).
  destruct (k a (mkWorld ud1 files1 [])) as [r [ud2 files2 t2]]; cbn.
  by rewrite app_assoc.
Qed.

Lemma param_try {A} (body : M A) (handler : exn → option (M A)) :
  trace_parametric body → (∀ e h, handler e = Some h → trace_parametric h) →
  trace_parametric (try_except body handler).
Proof.
  intros Hm Hh ud files t. unfold try_except. rewrite (Hm ud files t).
  destruct (body (mkWorld ud files [])) as [[a|e] [ud1 files1 t1]]; cbn; [done|].
  destruct (handler e) as [h|] eqn:He; [|done].
  rewrite (Hh e h He ud1 files1 (t ++ t1)%list), (Hh e h He ud1 files1 t1).
  destruct (h (mkWorld ud1 files1 [])) as [r [ud2 files2 t2]]; cbn.
  by rewrite app_assoc.
Qed.

Lemma param_tempdir {A} env (body : string → M A) :
  (∀ dir, trace_parametric (body dir)) → trace_parametric (with_tempdir env body).
Proof.
  intros Hb ud files t. unfold with_tempdir. rewrite (Hb (tmpname env) ud files t).
  by destruct (body (tmpname env) (mkWorld ud files [])) as [r [ud1 files1 t1]].
Qed.

Lemma param_emit e : trace_parametric (emit e).
Proof. by intros ud files t. Qed.

Lemma param_ud_get key : trace_parametric (ud_get key).
Proof. intros ud files t. unfold ud_get. cbn. by rewrite app_nil_r. Qed.

Lemma param_ud_get_default key dflt : trace_parametric (ud_get_default key dflt).
Proof. intros ud files t. unfold ud_get_default. cbn. by rewrite app_nil_r. Qed.

Lemma param_ud_item key : trace_parametric (ud_item key).
Proof.
  intros ud files t. unfold ud_item. cbn.
  destruct (ud !! key); cbn; by rewrite app_nil_r.
Qed.

Lemma param_ud_set key v : trace_parametric (ud_set key v).
Proof. intros ud files t. unfold ud_set. cbn. by rewrite app_nil_r. Qed.

Lemma param_read_file path : trace_parametric (read_file path).
Proof. intros ud files t. unfold read_file. cbn. by rewrite app_nil_r. Qed.

Lemma param_write_file path bytes : trace_parametric (write_file path bytes).
Proof. intros ud files t. unfold write_file. cbn. by rewrite app_nil_r. Qed.

Ltac param :=
  unfold mbind, M_bind, mret, M_ret, reply_text, edit_text; cbv zeta;
  repeat first
    [ apply param_ret | apply param_raise | apply param_emit
    | apply param_ud_get | apply param_ud_get_default | apply param_ud_item
    | apply param_ud_set | apply param_read_file | apply param_write_file
    | apply param_bind; [|intros ?]
    | apply param_tempdir; intros ?
    | apply param_try; [|intros ? ? ?]
    | match goal with
      | Heq : Some _ = Some _ |- _ => injection Heq as <-
      | Heq : None = Some _ |- _ => discriminate Heq
      | Heq : match ?x with _ => _ end = Some _ |- _ => destruct x
      | |- trace_parametric (match ?x with _ => _ end) => destruct x
      | |- trace_parametric (if ?b then _ else _) => destruct b
      end
    | progress unfold py_min, as_path, run_ffmpeg, subprocess_run, size_gt, media_file_name,
        get_file, reply_voice, mbind, M_bind, mret, M_ret, reply_text, edit_text ].

Lemma param_get_duration `{Runtime} env path : trace_parametric (get_duration env path).
Proof. unfold get_duration, subprocess_run. param. Qed.

Lemma param_convert_to_voice `{Runtime} env input output target sr ch :
  trace_parametric (convert_to_voice env input output target sr ch).
Proof.
  unfold convert_to_voice. param.
Qed.

Lemma param_callback `{Runtime} ev : trace_parametric (callback ev).
Proof.
  destruct ev as [| |[|u env|u env]]; cbn [callback handler].
  - unfold start. param.
  - unfold help_command. param.
  - unfold cancel. param.
  - unfold handle_audio, size_gt, media_file_name, get_file, reply_voice.
    param.
  - unfold handle_text, reply_voice. param.
Qed.

Lemma run_updates_sessions `{Runtime} (p : effect → bool) evs :
  (∀ s, p (Reply s) = false) →
  ∀ wa wb : World,
    user_data wa = user_data wb → fs wa = fs wb →
    List.filter p (trace wa) = List.filter p (trace wb) →
    user_data (run_updates wa evs) = user_data (run wb (session_events evs)) ∧
    fs (run_updates wa evs) = fs (run wb (session_events evs)) ∧
    List.filter p (trace (run_updates wa evs))
    = List.filter p (trace (run wb (session_events evs))).
Proof.
  intros Hp. induction evs as [|ev evs IH]; intros [ud files ta] [ud' files' tb]; cbn [user_data fs trace];
    intros <- <- Ht; [done|].
  destruct ev as [| |ev]; cbn [run_updates run session_events omap list_omap fold_left].
  - apply IH; cbn [step_update callback start reply_text emit snd user_data fs trace];
      [done..|]. by rewrite List.filter_app, Ht; cbn; rewrite Hp, app_nil_r.
  - apply IH; cbn [step_update callback help_command reply_text emit snd user_data fs trace];
      [done..|]. by rewrite List.filter_app, Ht; cbn; rewrite Hp, app_nil_r.
  - unfold step_update, step. change (handler ev) with (callback (Session ev)).
    rewrite (param_callback (Session ev) ud files ta), (param_callback (Session ev) ud files tb).
    cbn [snd user_data fs trace].
    apply IH; cbn [user_data fs trace]; [done..|].
    by rewrite !List.filter_app, Ht.
Qed.

(** X21: [/start] and [/help] are transparent.  Whatever updates of one
    user are handled, the dict and the files end up as if the [/start] and
    [/help] commands among them had not been sent, and the same voice
    messages are delivered and the same external commands run, in the same
    order. *)
Theorem info_commands_are_transparent `{Runtime} (w : World) (evs : list update_event) :
  let w1 := run_updates w evs in
  let w2 := run w (session_events evs) in
  user_data w1 = user_data w2 ∧
  fs w1 = fs w2 ∧
  List.filter is_voice (trace w1) = List.filter is_voice (trace w2) ∧
  List.filter is_ran (trace w1) = List.filter is_ran (trace w2).
Proof.
  cbn zeta.
  destruct (run_updates_sessions is_voice evs (λ _, eq_refl) w w eq_refl eq_refl eq_refl)
    as (Hud & Hfs & Hv).
  destruct (run_updates_sessions is_ran evs (λ _, eq_refl) w w eq_refl eq_refl eq_refl)
    as (_ & _ & Hr).
  done.
Qed.

(** ** The shape of the session dict *)

Lemma well_formed_processing `{Runtime} ud b :
  well_formed ud = true → well_formed (<["processing" := PyBool b]> ud) = true.
Proof.
  unfold well_formed. rewrite lookup_insert_eq, !lookup_insert_ne by done.
  by intros [[_ ->]%andb_true_iff ->]%andb_true_iff.
Qed.

Lemma well_formed_target `{Runtime} ud d :
  (d <? 1) || (MAX_DURATION <? d) = false →
  well_formed ud = true → well_formed (<["target_duration" := PyInt d]> ud) = true.
Proof.
  intros [Hlo Hhi]%orb_false_iff. unfold well_formed.
  rewrite lookup_insert_eq, !lookup_insert_ne by done.
  intros [[-> _]%andb_true_iff ->]%andb_true_iff.
  rewrite andb_true_r. cbn. apply andb_true_iff. unfold MIN_DURATION. lia.
Qed.

Lemma well_formed_target_none `{Runtime} ud :
  well_formed ud = true → well_formed (<["target_duration" := PyNone]> ud) = true.
Proof.
  unfold well_formed. rewrite lookup_insert_eq, !lookup_insert_ne by done.
  by intros [[-> _]%andb_true_iff ->]%andb_true_iff.
Qed.

Lemma well_formed_path_none `{Runtime} ud :
  well_formed ud = true → well_formed (<["file_path" := PyNone]> ud) = true.
Proof.
  unfold well_formed. rewrite lookup_insert_eq, !lookup_insert_ne by done.
  by intros [-> _]%andb_true_iff.
Qed.

Lemma well_formed_path `{Runtime} ud dir name :
  well_formed ud = true →
  well_formed (<["file_path" := PyStr (path_join dir name)]> ud) = true.
Proof.
  unfold well_formed. rewrite lookup_insert_eq, !lookup_insert_ne by done.
  intros [-> _]%andb_true_iff. apply (path_join_nonempty dir name).
Qed.

Lemma step_well_formed `{Runtime} (w : World) ev :
  well_formed (user_data w) = true → well_formed (user_data (step w ev)) = true.
Proof.
  intros Hwf. destruct ev as [|u env|u env].
  - hunfold. cbn. destruct (truthy _); cbn; [|done]. by apply well_formed_processing.
  - destruct (accepted_upload w u env) as [[name bytes]|] eqn:Hacc.
    2: { destruct (handle_audio_rejected w u env Hacc) as (l & -> & _). cbn.
         destruct (truthy _); [done|]. by apply well_formed_processing. }
    destruct (truthy (default PyNone (user_data w !! "target_duration"))) eqn:Ht.
    + destruct (user_data w !! "target_duration") as [t|] eqn:Hlk; [|done]. cbn in Ht.
      destruct (convert_to_voice_result env (PyStr (path_join (tmpname env) name))
                  (path_join (tmpname env) "output.ogg") t 48000 1
                  (uploading w (path_join (tmpname env) name) bytes))
        as (b & w2 & Hconv & Hud & _).
      rewrite (handle_audio_convert w u env name bytes t b w2 Hacc Hlk Ht Hconv).
      destruct b; [destruct (fs w2 !! _)|]; cbn [user_data]; rewrite Hud; cbn [user_data uploading];
        [apply well_formed_path_none, well_formed_target_none|..];
        by do 2 apply well_formed_processing.
    + rewrite (handle_audio_prompt w u env name bytes Hacc Ht).
      destruct (ffprobe env _ _); cbn [user_data];
        try apply well_formed_processing;
        by apply well_formed_path, well_formed_processing.
  - destruct (handle_text_cases w u) as [(d & Hp & Hd & Hrange)|Hinv].
    2: { by destruct (handle_text_invalid w u env Hinv) as [msg ->]. }
    destruct (convert_to_voice_result env (default PyNone (user_data w !! "file_path"))
                (path_join (tmpname env) "output.ogg") (PyInt d) 48000 1
                (converting w d)) as (b & w2 & Hconv & Hud & _).
    rewrite (handle_text_valid w u env d b w2 Hp Hd Hrange Hconv).
    destruct b; [destruct (fs w2 !! _)|]; cbn [user_data]; rewrite Hud; cbn [user_data converting];
      [apply well_formed_path_none, well_formed_target_none, well_formed_processing|..];
      by apply well_formed_target.
Qed.

(** X22: the shape of the dict is an invariant.  In every session state
    reachable from a fresh session, whatever the updates and whatever the
    outside world does, ['processing'] is absent or a [bool],
    ['target_duration'] is absent, [None] or an [int] between
    [MIN_DURATION] and [MAX_DURATION], and ['file_path'] is absent, [None]
    or a non-empty [str]. *)
Theorem session_dict_is_well_formed `{Runtime} files (evs : list event) :
  well_formed (user_data (run (fresh_session files) evs)) = true.
Proof.
  assert (∀ w : World, well_formed (user_data w) = true →
                       well_formed (user_data (run w evs)) = true) as Hrun.
  { induction evs as [|ev evs IH]; intros w Hwf; [done|].
    cbn. apply IH. by apply step_well_formed. }
  by apply Hrun.
Qed.

(** X23: an upload is refused whenever the flag is set, that is in every
    status but [Idle]: while a duration is awaited as well as while a
    conversion is marked in progress.  The reply is the busy message and
    nothing else changes. *)
Theorem upload_while_busy_rejected `{Runtime} (w : World) u env :
  status (user_data w) ≠ Idle →
  step w (FileUploaded u env)
  = mkWorld (user_data w) (fs w)
            (trace w ++ [Reply "I'm already processing a file. Please wait..."]).
Proof.
  intros Hs.
  assert (truthy (default PyNone (user_data w !! "processing")) = true) as Hp.
  { unfold status in Hs. by destruct (truthy _). }
  hunfold. cbn. by rewrite Hp.
Qed.

Lemma upload_while_busy_rejected_witness :
  let w := run (RT := reference_runtime) (fresh_session ∅)
             [FileUploaded (audio_update "song.mp3") env_upload] in
  status (user_data w) = AwaitingDuration ∧
  step (RT := reference_runtime) w (FileUploaded (audio_update "next.mp3") env_short)
  = mkWorld (user_data w) (fs w)
            (trace w ++ [Reply "I'm already processing a file. Please wait..."]).
Proof.
  split; [vm_compute; reflexivity|].
  apply (upload_while_busy_rejected (H := reference_runtime)).
  vm_compute. discriminate.
Defined.

(** ** The stale pending path *)




